(** * The terminal package: session registry and command router

    A shallow embedding of [src/terminal.js] (class [Terminal]) together
    with the parts of the JavaScript semantics it relies on: truthiness,
    the insertion-ordered [Set] with its live iterator, method calls on
    possibly-undefined receivers, and [async] functions suspended on a
    promise.

    The classes [TerminalModel] (model.js) and [TerminalElement]
    (element.js) are collaborators of [Terminal]; what is needed of them
    is gathered in [Module Model]. *)

From stdpp Require Import gmap strings list fin_maps pretty.

(** ** JavaScript values *)

(** Object identities: a [TerminalModel] instance and an Atom [Pane]. *)
Definition ref := nat.
Definition pane := nat.

Inductive value :=
  | VUndefined
  | VNull
  | VBool (b : bool)
  | VString (s : string)
  | VPane (p : pane)
  | VTerminal (t : ref)
  | VObject (o : nat).

Global Instance value_eq_dec : EqDecision value.
Proof. solve_decision. Defined.

(** [ToBoolean]: what [if (v)] and [!v] test. *)
Definition truthy (v : value) : bool :=
  match v with
  | VUndefined | VNull => false
  | VBool b => b
  | VString s => negb (String.eqb s "")
  | VPane _ | VTerminal _ | VObject _ => true
  end.

(** A variable that holds either an object or [undefined]. *)
Definition of_option {A} (inj : A → value) (o : option A) : value :=
  match o with Some a => inj a | None => VUndefined end.

(** An options object: own enumerable keys and their values.
    ['k' in options] is [is_Some (options !! k)]; a key may be present and
    hold [VUndefined]. *)
Abbreviation Options := (gmap string value).

Definition has_key (k : string) (o : Options) : bool := bool_decide (is_Some (o !! k)).

(** ** The insertion-ordered [Set]

    ECMA-262 keeps the elements of a [Set] in a list of entries; [delete]
    replaces an entry by an empty slot and [add] appends.  An iterator
    holds an index into that list, so that it sees entries appended while
    it runs and skips the ones deleted before it reaches them. *)
Module JSSet.

Abbreviation t := (list (option ref)).

Definition empty : t := [].

Definition has (x : ref) (s : t) : bool := bool_decide (Some x ∈ s).

Definition add (x : ref) (s : t) : t :=
  if has x s then s else s ++ [Some x].

Definition delete (x : ref) (s : t) : t :=
  (λ e, if decide (e = Some x) then None else e) <$> s.

(** [[...s]]: the live entries, in insertion order. *)
Definition values (s : t) : list ref := omap id s.

Definition size (s : t) : nat := length (values s).

End JSSet.

(** ** The workspace, as far as the package reads it *)

Inductive Container := Center | LeftDock | RightDock | BottomDock.

Global Instance Container_eq_dec : EqDecision Container.
Proof. solve_decision. Defined.

Inductive Item :=
  | TerminalItem (t : ref)
  | OtherItem (o : nat).

Global Instance Item_eq_dec : EqDecision Item.
Proof. solve_decision. Defined.

(** [Center] stands for [atom.workspace] itself, the three docks for
    [atom.workspace.getLeftDock()] and its siblings. *)
Record ContainerState := {
  isVisible : bool;
  activePane : option pane;          (* getActivePane() *)
  activePaneItem : option Item       (* getActivePaneItem() *)
}.

Definition Workspace := Container → ContainerState.

(** ** Objects of class [TerminalModel] *)

Inductive ProcessState := Starting | Ready | Exited.

Record TerminalModel := {
  uri : string;
  processState : ProcessState;
  container : option pane;
  isActive : bool;
  selection : string
}.

(** ** Calls made to collaborators, in program order *)

Inductive Call :=
  | CallExit (t : ref)
  | CallRestartPtyProcess (t : ref)
  | CallCopyFromTerminal (t : ref)
  | CallPasteToTerminal (t : ref) (text : string)
  | CallRunCommand (t : ref) (command : string)
  | CallFocusOnTerminal (t : ref)
  | CallSetNewPane (t : ref) (p : pane)
  | CallClipboardRead
  | CallClipboardWrite (text : string)
  | CallWorkspaceOpen (u : string) (options : Options)
  | CallWorkspaceFocus.

(** ** The state the package runs in *)

Record World := {
  terminalsSet : JSSet.t;              (* this.terminalsSet *)
  heap : gmap ref TerminalModel;       (* the TerminalModel objects *)
  config : gmap string value;          (* atom.config *)
  workspace : Workspace;               (* atom.workspace *)
  clipboard : string;                  (* atom.clipboard *)
  uuid_source : nat → string;          (* what the n-th uuidv4() returns *)
  uuid_count : nat;
  calls : list Call
}.

Definition with_terminalsSet (s : JSSet.t) (w : World) : World :=
  {| terminalsSet := s; heap := heap w; config := config w;
     workspace := workspace w; clipboard := clipboard w;
     uuid_source := uuid_source w; uuid_count := uuid_count w;
     calls := calls w |}.

Definition with_heap (h : gmap ref TerminalModel) (w : World) : World :=
  {| terminalsSet := terminalsSet w; heap := h; config := config w;
     workspace := workspace w; clipboard := clipboard w;
     uuid_source := uuid_source w; uuid_count := uuid_count w;
     calls := calls w |}.

Definition with_workspace (ws : Workspace) (w : World) : World :=
  {| terminalsSet := terminalsSet w; heap := heap w; config := config w;
     workspace := ws; clipboard := clipboard w;
     uuid_source := uuid_source w; uuid_count := uuid_count w;
     calls := calls w |}.

Definition with_clipboard (c : string) (w : World) : World :=
  {| terminalsSet := terminalsSet w; heap := heap w; config := config w;
     workspace := workspace w; clipboard := c;
     uuid_source := uuid_source w; uuid_count := uuid_count w;
     calls := calls w |}.

Definition with_uuid_count (n : nat) (w : World) : World :=
  {| terminalsSet := terminalsSet w; heap := heap w; config := config w;
     workspace := workspace w; clipboard := clipboard w;
     uuid_source := uuid_source w; uuid_count := n;
     calls := calls w |}.

Definition with_calls (l : list Call) (w : World) : World :=
  {| terminalsSet := terminalsSet w; heap := heap w; config := config w;
     workspace := workspace w; clipboard := clipboard w;
     uuid_source := uuid_source w; uuid_count := uuid_count w;
     calls := l |}.

(** ** Computations: state and exceptions *)

Inductive Error := TypeError.

Inductive Result (A : Type) :=
  | Ok (a : A) (w : World)
  | Throw (e : Error) (w : World).
Arguments Ok {A} a w.
Arguments Throw {A} e w.

Definition M (A : Type) : Type := World → Result A.

Global Instance M_ret : MRet M := λ A a w, Ok a w.

Global Instance M_bind : MBind M := λ A B f m w,
  match m w with
  | Ok a w' => f a w'
  | Throw e w' => Throw e w'
  end.

Definition throw {A} (e : Error) : M A := λ w, Throw e w.

Definition get {A} (f : World → A) : M A := λ w, Ok (f w) w.

Definition modify (f : World → World) : M unit := λ w, Ok () (f w).

Definition record (c : Call) : M unit :=
  modify (λ w, with_calls (calls w ++ [c]) w).

(** [o.m(...)] where [o] may be [undefined]: a [TypeError] in that case. *)
Definition invoke {A} (o : option ref) (m : ref → M A) : M A :=
  match o with
  | Some t => m t
  | None => throw TypeError
  end.

(** [for (const x of array) body(x)] *)
Fixpoint for_of {A} (l : list A) (body : A → M unit) : M unit :=
  match l with
  | [] => mret ()
  | x :: l' => body x ≫= λ _, for_of l' body
  end.

(** [atom.config.get(key)] *)
Definition config_get (key : string) : M value :=
  get (λ w, default VUndefined (config w !! key)).

(** ** Promises and suspended [async] calls *)

Inductive Promise :=
  | OpenPromise (n : nat)               (* returned by the n-th call made *)
  | InitializedPromise (t : ref).       (* t.element.initializedPromise *)

Global Instance Promise_eq_dec : EqDecision Promise.
Proof. solve_decision. Defined.

Inductive Settlement :=
  | Fulfil (v : value)
  | Reject (e : Error).

(** The promise an [async] function returned: settled, or waiting at an
    [await] with the rest of the body as continuation. *)
#[warnings="-register-all"]
Inductive Task :=
  | Fulfilled
  | Rejected (e : Error)
  | Pending (p : Promise) (k : value → M Task).

(** Running a piece of an [async] body: an exception rejects the call. *)
Definition async (m : M Task) (w : World) : Task * World :=
  match m w with
  | Ok t w' => (t, w')
  | Throw e w' => (Rejected e, w')
  end.

(** The event loop delivers the settlement of promise [p]. *)
Definition settle (p : Promise) (s : Settlement) (tw : Task * World) : Task * World :=
  match tw with
  | (Pending q k, w) =>
      if decide (p = q) then
        match s with
        | Fulfil v => async (k v) w
        | Reject e => (Rejected e, w)
        end
      else tw
  | _ => tw
  end.

(** ** The collaborators in model.js and element.js *)
Module Model.

Definition set_isActive (b : bool) (m : TerminalModel) : TerminalModel :=
  {| uri := uri m; processState := processState m; container := container m;
     isActive := b; selection := selection m |}.

Definition set_processState (s : ProcessState) (m : TerminalModel) : TerminalModel :=
  {| uri := uri m; processState := s; container := container m;
     isActive := isActive m; selection := selection m |}.

Definition set_container (p : option pane) (m : TerminalModel) : TerminalModel :=
  {| uri := uri m; processState := processState m; container := p;
     isActive := isActive m; selection := selection m |}.

(** Modelled from the spec: [isActiveTerminal()] of model.js.  It reads
    the flag [isActive] that the registry recomputes (section 3). *)
Definition isActiveTerminal (t : ref) (w : World) : bool :=
  default false (isActive <$> heap w !! t).

(** Modelled from the spec: the priority order of the containers in the
    recomputation of model.js (section 4.1, step 1): center workspace,
    left dock, right dock, bottom dock. *)
Definition priority : list Container := [Center; LeftDock; RightDock; BottomDock].

Definition focused (ws : Workspace) (c : Container) : bool :=
  isVisible (ws c) && bool_decide (is_Some (activePaneItem (ws c))).

(** Modelled from the spec: steps 2 and 3 of the recomputation of
    model.js.  The highest-priority container that is visible and has an
    active item decides; its item is the candidate when it is a Session. *)
Definition active_candidate (ws : Workspace) : option ref :=
  match List.find (focused ws) priority with
  | Some c =>
      match activePaneItem (ws c) with
      | Some (TerminalItem t) => Some t
      | _ => None
      end
  | None => None
  end.

Definition mark (target : option ref) (t : ref)
    (h : gmap ref TerminalModel) : gmap ref TerminalModel :=
  alter (set_isActive (bool_decide (target = Some t))) t h.

(** Modelled from the spec: [TerminalModel.recalculateActive(terminalsSet)]
    of model.js ([recomputeActive], section 4.1).  It is handed the set
    and updates the flag of each of its Sessions, nothing else. *)
Definition recalculateActive : M unit :=
  modify (λ w, with_heap
    (foldr (mark (active_candidate (workspace w))) (heap w)
           (JSSet.values (terminalsSet w))) w).

(** Modelled from the spec: [register(session)], section 4.1. *)
Definition register (t : ref) : M unit :=
  modify (λ w, with_terminalsSet (JSSet.add t (terminalsSet w)) w) ≫= λ _,
  recalculateActive.

(** Modelled from the spec: [unregister(session)], section 4.1. *)
Definition unregister (t : ref) : M unit :=
  wasActive ← get (isActiveTerminal t);
  modify (λ w, with_terminalsSet (JSSet.delete t (terminalsSet w)) w) ≫= λ _,
  if (wasActive : bool) then recalculateActive else mret ().

(** Modelled from the spec: the constructor of [TerminalModel] in
    model.js.  A Session is bound to its address and inserted into the
    set at creation (section 3, Registry). *)
Definition new (u : string) : M ref := λ w,
  let t := fresh (dom (heap w)) in
  let m := {| uri := u; processState := Starting; container := None;
              isActive := false; selection := "" |} in
  (register t ≫= λ _, mret t) (with_heap (<[t := m]> (heap w)) w).

(** Modelled from the spec: [exit()] of model.js.  The process
    collaborator is terminated and the Session leaves the set
    (section 3: removal on Session exit). *)
Definition exit (t : ref) : M unit :=
  record (CallExit t) ≫= λ _,
  modify (λ w, with_heap (alter (set_processState Exited) t (heap w)) w) ≫= λ _,
  unregister t.

(** Modelled from the spec: [restartPtyProcess()] of model.js, a request
    to the process collaborator; the call is recorded. *)
Definition restartPtyProcess (t : ref) : M unit := record (CallRestartPtyProcess t).

(** Modelled from the spec: [copyFromTerminal()] of model.js, which
    returns the text selected in the Session. *)
Definition copyFromTerminal (t : ref) : M string :=
  record (CallCopyFromTerminal t) ≫= λ _,
  get (λ w, default "" (selection <$> heap w !! t)).

(** Modelled from the spec: [pasteToTerminal(text)] of model.js, input
    written to the process collaborator; the call is recorded. *)
Definition pasteToTerminal (text : string) (t : ref) : M unit :=
  record (CallPasteToTerminal t text).

(** Modelled from the spec: [runCommand(command)] of model.js, the
    submission of one command to the Session; the call is recorded. *)
Definition runCommand (command : string) (t : ref) : M unit :=
  record (CallRunCommand t command).

(** Modelled from the spec: [focusOnTerminal()] of model.js routes
    input focus to the Session, a one-time action that leaves the flags
    alone (section 4.2). *)
Definition focusOnTerminal (t : ref) : M unit := record (CallFocusOnTerminal t).

(** Modelled from the spec: [setNewPane(pane)] of model.js attaches the
    container to the Session (section 4.2). *)
Definition setNewPane (p : pane) (t : ref) : M unit :=
  record (CallSetNewPane t p) ≫= λ _,
  modify (λ w, with_heap (alter (set_container (Some p)) t (heap w)) w).

(** Modelled from the spec: [element.initializedPromise] of element.js,
    the readiness signal of the Session's process collaborator. *)
Definition initializedPromise (t : ref) : M Promise := mret (InitializedPromise t).

End Model.

(** ** Collaborators of Atom *)

Definition clipboard_write (text : string) : M unit :=
  record (CallClipboardWrite text) ≫= λ _, modify (with_clipboard text).

Definition clipboard_read : M string :=
  record CallClipboardRead ≫= λ _, get clipboard.

(** [atom.workspace.open(uri, options)]: the request is handed to the
    workspace, which answers with a promise of the item. *)
Definition workspace_open (u : string) (options : Options) : M Promise :=
  n ← get (λ w, length (calls w));
  record (CallWorkspaceOpen u options) ≫= λ _,
  mret (OpenPromise n).

Definition getActivePane (c : Container) : M (option pane) :=
  get (λ w, activePane (workspace w c)).

Definition getActivePaneItem (c : Container) : M (option Item) :=
  get (λ w, activePaneItem (workspace w c)).

(** [uuidv4()] of the uuid package. *)
Definition uuidv4 : M string := λ w,
  Ok (uuid_source w (uuid_count w)) (with_uuid_count (S (uuid_count w)) w).

(** ** Class [Terminal] of terminal.js *)
Module Terminal.

Definition TERMINAL_BASE_URI : string := "terminal://".

(** The opener added with [atom.workspace.addOpener]: a function that
    falls off its end, returning [undefined], unless the uri starts with
    the base uri. *)
Definition opener (u : string) : M (option ref) :=
  if String.prefix TERMINAL_BASE_URI u then
    item ← Model.new u;
    mret (Some item)
  else mret None.

(** The callbacks registered in the constructor, in registration order. *)
Inductive Observer :=
  | ObservePanes
  | ObserveActivePaneItem
  | ObserveVisible (dock : Container).

Definition observers : list Observer :=
  [ObservePanes; ObserveActivePaneItem;
   ObserveVisible RightDock; ObserveVisible LeftDock; ObserveVisible BottomDock].

(** What the workspace reports to those callbacks. *)
Inductive Signal :=
  | PaneObserved (p : pane)                        (* observePanes *)
  | ItemObserved (p : pane) (item : Item)           (* pane.observeItems *)
  | ActivePaneItem (item : option Item)             (* observeActivePaneItem *)
  | Visible (dock : Container) (visible : bool).    (* dock.observeVisible *)

Definition focus_if_terminal (item : option Item) : M unit :=
  match item with
  | Some (TerminalItem t) => Model.focusOnTerminal t
  | _ => mret ()
  end.

Definition on_signal (s : Signal) : M unit :=
  match s with
  | PaneObserved p => Model.recalculateActive
  | ItemObserved p item =>
      match item with
      | TerminalItem t => Model.setNewPane p t
      | OtherItem _ => mret ()
      end ≫= λ _,
      Model.recalculateActive
  | ActivePaneItem item =>
      focus_if_terminal item ≫= λ _,
      Model.recalculateActive
  | Visible dock visible =>
      (if visible then
         item ← getActivePaneItem dock;
         focus_if_terminal item
       else mret ()) ≫= λ _,
      Model.recalculateActive
  end.

Definition deserializeTerminalModel (serialized_uri : string) : M (option ref) :=
  allow ← config_get "terminal.allowRelaunchingTerminalsOnStartup";
  if truthy allow then
    item ← Model.new serialized_uri;
    mret (Some item)
  else mret None.

(** [for (const terminal of this.terminalsSet) terminal.exit()]: the
    iterator walks the entries of the set itself, index by index, while
    the body runs.  [None] when [fuel] entries were not enough. *)
Fixpoint set_for_of (fuel : nat) (i : nat) (body : ref → M unit)
    (w : World) : option (Result unit) :=
  match fuel with
  | 0 => None
  | S fuel' =>
      match terminalsSet w !! i with
      | None => Some (Ok () w)
      | Some None => set_for_of fuel' (S i) body w
      | Some (Some t) =>
          match body t w with
          | Ok _ w' => set_for_of fuel' (S i) body w'
          | Throw e w' => Some (Throw e w')
          end
      end
  end.

(** [exit] is the method the entries answer to [terminal.exit()] with. *)
Definition exitAllTerminals_with (exit : ref → M unit) (fuel : nat)
    (w : World) : option (Result unit) :=
  set_for_of fuel 0 exit w.

Definition exitAllTerminals : nat → World → option (Result unit) :=
  exitAllTerminals_with Model.exit.

Definition getActiveTerminal : M (option ref) :=
  terminals ← get (λ w, JSSet.values (terminalsSet w));
  get (λ w, List.find (λ t, Model.isActiveTerminal t w) terminals).

Definition open (u : string) (options : Options) : M Promise :=
  workspace_open u options.

Definition generateNewUri : M string :=
  token ← uuidv4;
  mret (TERMINAL_BASE_URI +:+ token +:+ "/").

Definition set_pane_unless_given (p : option pane) (options : Options) : Options :=
  match p with
  | Some p' => if negb (has_key "pane" options) then <["pane" := VPane p']> options else options
  | None => options
  end.

Definition set_split_unless_given (dir : string) (options : Options) : Options :=
  if negb (has_key "split" options) then <["split" := VString dir]> options else options.

(** The object handed in is the object returned; its keys after the
    call are what is modelled. *)
Definition addDefaultPosition (options : Options) : M Options :=
  position ← config_get "terminal.defaultOpenPosition";
  if decide (position = VString "Center") then
    p ← getActivePane Center;
    mret (set_pane_unless_given p options)
  else if decide (position = VString "Split Up") then
    mret (set_split_unless_given "up" options)
  else if decide (position = VString "Split Down") then
    mret (set_split_unless_given "down" options)
  else if decide (position = VString "Split Left") then
    mret (set_split_unless_given "left" options)
  else if decide (position = VString "Split Right") then
    mret (set_split_unless_given "right" options)
  else if decide (position = VString "Bottom Dock") then
    p ← getActivePane BottomDock;
    mret (set_pane_unless_given p options)
  else if decide (position = VString "Left Dock") then
    p ← getActivePane LeftDock;
    mret (set_pane_unless_given p options)
  else if decide (position = VString "Right Dock") then
    p ← getActivePane RightDock;
    mret (set_pane_unless_given p options)
  else mret options.

Definition openInCenterOrDock (centerOrDock : Container) (options : Options) : M Promise :=
  p ← getActivePane centerOrDock;
  u ← generateNewUri;
  open u (match p with Some p' => <["pane" := VPane p']> options | None => options end).

Definition openTerminal (options : Options) : M Promise :=
  options' ← addDefaultPosition options;
  u ← generateNewUri;
  open u options'.

(** The awaited item, as the receiver of [.element.initializedPromise]. *)
Definition as_terminal (v : value) : option ref :=
  match v with
  | VTerminal t => Some t
  | _ => None
  end.

(** From [await terminal.element.initializedPromise] to the end. *)
Definition runCommands_await (terminal : option ref) (commands : list string) : M Task :=
  p ← invoke terminal Model.initializedPromise;
  mret (Pending p (λ _,
    for_of commands (λ command, invoke terminal (Model.runCommand command)) ≫= λ _,
    mret Fulfilled)).

Definition runCommands (commands : list string) : M Task :=
  runInActive ← config_get "terminal.runInActive";
  terminal ← (if truthy runInActive then getActiveTerminal else mret None);
  if negb (truthy (of_option VTerminal terminal)) then
    options ← addDefaultPosition ∅;
    u ← generateNewUri;
    p ← open u options;
    mret (Pending p (λ v, runCommands_await (as_terminal v) commands))
  else runCommands_await terminal commands.

Definition close : M unit :=
  terminal ← getActiveTerminal;
  if truthy (of_option VTerminal terminal) then invoke terminal Model.exit
  else mret ().

Definition restart : M unit :=
  terminal ← getActiveTerminal;
  if truthy (of_option VTerminal terminal) then invoke terminal Model.restartPtyProcess
  else mret ().

Definition copy : M unit :=
  terminal ← getActiveTerminal;
  if truthy (of_option VTerminal terminal) then
    text ← invoke terminal Model.copyFromTerminal;
    clipboard_write text
  else mret ().

Definition paste : M unit :=
  terminal ← getActiveTerminal;
  if truthy (of_option VTerminal terminal) then
    text ← clipboard_read;
    invoke terminal (Model.pasteToTerminal text)
  else mret ().

Definition unfocus : M unit := record CallWorkspaceFocus.

End Terminal.

(** ** The commands added in the constructor of [Terminal] *)
Module Commands.

(** The commands of [atom-workspace] that open a terminal. *)
Inductive Command :=
  | CmdOpen
  | CmdOpenCenter
  | CmdOpenUp
  | CmdOpenDown
  | CmdOpenLeft
  | CmdOpenRight
  | CmdOpenBottomDock
  | CmdOpenLeftDock
  | CmdOpenRightDock.

(** [this.open(this.generateNewUri(), { split: dir })] *)
Definition open_split (dir : string) : M Promise :=
  u ← Terminal.generateNewUri;
  Terminal.open u {[ "split" := VString dir ]}.

(** The arguments of a call are evaluated from left to right: in
    [terminal:open] the address is generated before the placement is
    looked up.  [openInCenterOrDock] is called without options, so that
    its default, a new empty object, is taken. *)
Definition run (c : Command) : M Promise :=
  match c with
  | CmdOpen =>
      u ← Terminal.generateNewUri;
      options ← Terminal.addDefaultPosition ∅;
      Terminal.open u options
  | CmdOpenCenter => Terminal.openInCenterOrDock Center ∅
  | CmdOpenUp => open_split "up"
  | CmdOpenDown => open_split "down"
  | CmdOpenLeft => open_split "left"
  | CmdOpenRight => open_split "right"
  | CmdOpenBottomDock => Terminal.openInCenterOrDock BottomDock ∅
  | CmdOpenLeftDock => Terminal.openInCenterOrDock LeftDock ∅
  | CmdOpenRightDock => Terminal.openInCenterOrDock RightDock ∅
  end.

End Commands.

(** ** The object returned by [providePlatformIOIDEService] *)
Module Service.

Definition run (commands : list string) : M Task := Terminal.runCommands commands.

(** The set itself is handed out, not a copy. *)
Definition getTerminalViews : M JSSet.t := get terminalsSet.

Definition open : M Promise := Terminal.openTerminal ∅.

End Service.

(** ** The module: one instance of [Terminal] at most *)
Module Package.

(** The module variable [terminal] (an instance or nothing), whether the
    disposables of the instance are still in place, and the rest. *)
Record State := {
  terminal : bool;
  subscribed : bool;
  atom : World
}.

Inductive Outcome (A : Type) :=
  | Done (a : A) (st : State)
  | Failed (e : Error) (st : State).
Arguments Done {A} a st.
Arguments Failed {A} e st.

(** [new Terminal()]: a new empty set; the observers are registered, and
    the workspace calls each of them at once with what there is to
    observe, [initial]. *)
Definition construct (initial : list Terminal.Signal) : M unit :=
  modify (with_terminalsSet JSSet.empty) ≫= λ _,
  for_of initial Terminal.on_signal.

Definition getInstance (initial : list Terminal.Signal) (st : State) : Outcome unit :=
  if terminal st then Done () st
  else
    match construct initial (atom st) with
    | Ok _ w => Done () {| terminal := true; subscribed := true; atom := w |}
    | Throw e w => Failed e {| terminal := false; subscribed := subscribed st; atom := w |}
    end.

(** [activate(state)]: the method [activate] of the instance is empty. *)
Definition activate (initial : list Terminal.Signal) (st : State) : Outcome unit :=
  getInstance initial st.

(** [destroy()]: all terminals exit, then the disposables are disposed. *)
Definition destroy (fuel : nat) (st : State) : option (Outcome unit) :=
  match Terminal.exitAllTerminals fuel (atom st) with
  | None => None
  | Some (Ok _ w) => Some (Done () {| terminal := terminal st; subscribed := false; atom := w |})
  | Some (Throw e w) =>
      Some (Failed e {| terminal := terminal st; subscribed := subscribed st; atom := w |})
  end.

Definition deactivate (fuel : nat) (st : State) : option (Outcome unit) :=
  if terminal st then
    match destroy fuel st with
    | Some (Done _ st') =>
        Some (Done () {| terminal := false; subscribed := subscribed st'; atom := atom st' |})
    | other => other
    end
  else Some (Done () st).

(** The exported [deserializeTerminalModel]: on the instance, which is
    created when there is none. *)
Definition deserializeTerminalModel (initial : list Terminal.Signal)
    (serialized_uri : string) (st : State) : Outcome (option ref) :=
  match getInstance initial st with
  | Done _ st' =>
      match Terminal.deserializeTerminalModel serialized_uri (atom st') with
      | Ok r w => Done r {| terminal := terminal st'; subscribed := subscribed st'; atom := w |}
      | Throw e w => Failed e {| terminal := terminal st'; subscribed := subscribed st'; atom := w |}
      end
  | Failed e st' => Failed e st'
  end.

End Package.

(** * Vocabulary of the statements *)

(** [n] calls in a row produce the addresses of [n] consecutive tokens. *)
Fixpoint generate_many (n : nat) (w : World) : list string * World :=
  match n with
  | 0 => ([], w)
  | S n' =>
      match Terminal.generateNewUri w with
      | Ok u w' => let '(us, w'') := generate_many n' w' in (u :: us, w'')
      | Throw _ w' => ([], w')
      end
  end.

(** The state right after [new Terminal()]: an empty set, nothing open. *)
Definition hidden : ContainerState :=
  {| isVisible := false; activePane := None; activePaneItem := None |}.

Definition initial_world : World :=
  {| terminalsSet := JSSet.empty; heap := ∅; config := ∅;
     workspace := λ _, hidden; clipboard := "";
     uuid_source := λ n, pretty n; uuid_count := 0; calls := [] |}.

Definition with_config (c : gmap string value) (w : World) : World :=
  {| terminalsSet := terminalsSet w; heap := heap w; config := c;
     workspace := workspace w; clipboard := clipboard w;
     uuid_source := uuid_source w; uuid_count := uuid_count w;
     calls := calls w |}.

(** The values of [terminal.defaultOpenPosition] that [addDefaultPosition]
    has a case for, and the container whose active pane each one reads. *)
Definition recognized_positions : list string :=
  ["Center"; "Split Up"; "Split Down"; "Split Left"; "Split Right";
   "Bottom Dock"; "Left Dock"; "Right Dock"].

Definition designated (position : string) : option Container :=
  if decide (position = "Center") then Some Center
  else if decide (position = "Bottom Dock") then Some BottomDock
  else if decide (position = "Left Dock") then Some LeftDock
  else if decide (position = "Right Dock") then Some RightDock
  else None.

Definition defaultOpenPosition (w : World) : value :=
  default VUndefined (config w !! "terminal.defaultOpenPosition").

Definition allowRelaunching (w : World) : value :=
  default VUndefined (config w !! "terminal.allowRelaunchingTerminalsOnStartup").

Definition runInActive (w : World) : value :=
  default VUndefined (config w !! "terminal.runInActive").

(** Worlds used as examples. *)
Definition idle_model : TerminalModel :=
  {| uri := "terminal://a/"; processState := Ready; container := None;
     isActive := false; selection := "ls" |}.

Definition idle_world : World :=
  with_heap {[ 0 := idle_model ]} (with_terminalsSet [Some 0] initial_world).

Definition relaunch_world : World :=
  with_config {[ "terminal.allowRelaunchingTerminalsOnStartup" := VBool true ]} initial_world.

Definition placed_world (position : string) (p : option pane) : World :=
  with_workspace (λ _, {| isVisible := true; activePane := p; activePaneItem := None |})
    (with_config {[ "terminal.defaultOpenPosition" := VString position ]} initial_world).

(** A Session of the registry: a member of the set. *)
Definition registered (t : ref) (w : World) : Prop :=
  t ∈ JSSet.values (terminalsSet w).

(** A reference that leads to an object. *)
Definition allocated (t : ref) (w : World) : Prop := is_Some (heap w !! t).

Global Instance registered_dec (t : ref) (w : World) : Decision (registered t w).
Proof. unfold registered. apply _. Defined.

Global Instance allocated_dec (t : ref) (w : World) : Decision (allocated t w).
Proof. unfold allocated. apply _. Defined.

Definition at_most_one_active (w : World) : Prop :=
  ∀ t1 t2, registered t1 w → registered t2 w →
    Model.isActiveTerminal t1 w = true → Model.isActiveTerminal t2 w = true → t1 = t2.

(** What may happen to the registry, one at a time: its three operations,
    a change of the containers outside of it, a callback of the
    constructor, the creation of a Session through the opener, the exit of
    a Session. *)
Inductive RegistryOp :=
  | Register (t : ref)
  | Unregister (t : ref)
  | RecomputeActive
  | WorkspaceChanged (ws : Workspace)
  | Observed (s : Terminal.Signal)
  | Opened (u : string)
  | Exits (t : ref).

Definition apply_op (op : RegistryOp) : M unit :=
  match op with
  | Register t => Model.register t
  | Unregister t => Model.unregister t
  | RecomputeActive => Model.recalculateActive
  | WorkspaceChanged ws => modify (with_workspace ws)
  | Observed s => Terminal.on_signal s
  | Opened u => Terminal.opener u ≫= λ _, mret ()
  | Exits t => Model.exit t
  end.

Definition run_ops (ops : list RegistryOp) : M unit := for_of ops apply_op.



Definition showing (visible : bool) (item : option Item) : ContainerState :=
  {| isVisible := visible; activePane := None; activePaneItem := item |}.

(** Two Sessions opened, the first focused in the bottom dock and the
    second in the center, with an editor in the hidden left dock. *)
Definition two_focused : list RegistryOp :=
  [Opened "terminal://a/"; Opened "terminal://b/";
   WorkspaceChanged (λ c, match c with
                          | Center => showing true (Some (TerminalItem 1))
                          | BottomDock => showing true (Some (TerminalItem 0))
                          | LeftDock => showing false (Some (OtherItem 0))
                          | RightDock => showing false None
                          end)].

Definition world_after (ops : list RegistryOp) (w : World) : World :=
  match run_ops ops w with
  | Ok _ w' => w'
  | Throw _ w' => w'
  end.

(** The iteration as the specification words it: over a copy of the set
    taken at the start. *)
Definition exitAll_snapshot (exit : ref → M unit) : M unit :=
  terminals ← get (λ w, JSSet.values (terminalsSet w));
  for_of terminals exit.

(** An [exit] that removes its Session and, with it, the Session [other]. *)
Definition exit_along_with (other : ref) (t : ref) : M unit :=
  record (CallExit t) ≫= λ _,
  modify (λ w, with_terminalsSet (JSSet.delete other (JSSet.delete t (terminalsSet w))) w).

Definition two_sessions : World := with_terminalsSet [Some 0; Some 1] initial_world.

(** The two continuations of [runCommands]: the rest of the body after
    [await this.open(...)], and after [await ...initializedPromise]. *)
Definition await_opened (commands : list string) : value → M Task :=
  λ v, Terminal.runCommands_await (Terminal.as_terminal v) commands.

Definition submit_all (t : ref) (commands : list string) : value → M Task :=
  λ _, for_of commands (λ command, invoke (Some t) (Model.runCommand command)) ≫= λ _,
       mret Fulfilled.

Definition submission (c : Call) : option (ref * string) :=
  match c with
  | CallRunCommand t command => Some (t, command)
  | _ => None
  end.

(** The commands submitted to Sessions so far, oldest first. *)
Definition submissions (w : World) : list (ref * string) :=
  omap submission (calls w).

Definition waits_for (task : Task) : option Promise :=
  match task with
  | Pending p _ => Some p
  | _ => None
  end.

Definition world_of {A} (r : Result A) : World :=
  match r with
  | Ok _ w => w
  | Throw _ w => w
  end.

(** What the event loop runs while a call of [runCommands] is suspended:
    the settlement of a promise, anything that happens to the registry
    (a Session exits, the workspace changes, ...), the command
    [terminal:close]. *)
Inductive Event :=
  | Settled (p : Promise) (s : Settlement)
  | Does (op : RegistryOp)
  | CloseCommand.

Definition deliver (e : Event) (tw : Task * World) : Task * World :=
  match e with
  | Settled p s => settle p s tw
  | Does op => (tw.1, world_of (apply_op op tw.2))
  | CloseCommand => (tw.1, world_of (Terminal.close tw.2))
  end.

Definition event_loop (es : list Event) (tw : Task * World) : Task * World :=
  foldl (λ tw e, deliver e tw) tw es.

Definition settles (p : Promise) (e : Event) : Prop :=
  ∃ s, e = Settled p s.

(** A call of [runCommands] suspended on the readiness of Session [t],
    and one suspended on the answer of the workspace. *)
Definition waiting (t : ref) (commands : list string) : Task :=
  Pending (InitializedPromise t) (submit_all t commands).

Definition opening (n : nat) (commands : list string) : Task :=
  Pending (OpenPromise n) (await_opened commands).

(** [runCommands(["echo hi"])] with nothing open; the workspace creates the
    Session through the opener and hands it over; the Session is closed
    before it is ready. *)
Definition echo_started : Task * World :=
  async (Terminal.runCommands ["echo hi"]) initial_world.

Definition echo_opened : Task * World :=
  event_loop [Does (Opened "terminal://0/");
              Settled (OpenPromise 0) (Fulfil (VTerminal 0))] echo_started.

Definition echo_closed : Task * World :=
  event_loop [Does (Exits 0)] echo_opened.

(** The split directions that [addDefaultPosition] can set. *)
Definition split_directions : list string := ["up"; "down"; "left"; "right"].

(** The address that the next call of [generateNewUri] returns, and the
    state after a request to open address [u] with [options] that drew
    one token: one more call to the workspace, nothing else. *)
Definition next_address (w : World) : string :=
  Terminal.TERMINAL_BASE_URI +:+ uuid_source w (uuid_count w) +:+ "/".

Definition requested (u : string) (options : Options) (w : World) : World :=
  with_calls (calls w ++ [CallWorkspaceOpen u options])
    (with_uuid_count (S (uuid_count w)) w).

(** What [copyFromTerminal()] of Session [t] returns. *)
Definition selected (t : ref) (w : World) : string :=
  default "" (selection <$> heap w !! t).

(** Session 0, with the text "ls" selected, is the active one. *)
Definition busy_world : World :=
  with_heap {[ 0 := Model.set_isActive true idle_model ]} idle_world.

(** The one call to a Session that a callback of the constructor can
    make for what it is told. *)
Definition reported_call (s : Terminal.Signal) (w : World) : option Call :=
  match s with
  | Terminal.ItemObserved p (TerminalItem t) => Some (CallSetNewPane t p)
  | Terminal.ActivePaneItem (Some (TerminalItem t)) => Some (CallFocusOnTerminal t)
  | Terminal.Visible dock true =>
      match activePaneItem (workspace w dock) with
      | Some (TerminalItem t) => Some (CallFocusOnTerminal t)
      | _ => None
      end
  | _ => None
  end.

(** A package that was never activated, around a given state of Atom, and
    one whose instance is in place. *)
Definition inactive (w : World) : Package.State :=
  {| Package.terminal := false; Package.subscribed := false; Package.atom := w |}.

Definition active (w : World) : Package.State :=
  {| Package.terminal := true; Package.subscribed := true; Package.atom := w |}.






(** The placement that the configuration asks for, read off the value of
    [terminal.defaultOpenPosition]: the active pane of the designated
    container if it has one, or the direction of the split. *)
Definition split_of (position : string) : option string :=
  if decide (position = "Split Up") then Some "up"
  else if decide (position = "Split Down") then Some "down"
  else if decide (position = "Split Left") then Some "left"
  else if decide (position = "Split Right") then Some "right"
  else None.

Definition default_placement (w : World) : Options :=
  match defaultOpenPosition w with
  | VString position =>
      match designated position, split_of position with
      | Some c, _ =>
          match activePane (workspace w c) with
          | Some p => {[ "pane" := VPane p ]}
          | None => ∅
          end
      | None, Some dir => {[ "split" := VString dir ]}
      | None, None => ∅
      end
  | _ => ∅
  end.

(** Session 0 is the active one and [terminal.runInActive] is on. *)
Definition reuse_world : World :=
  with_config {[ "terminal.runInActive" := VBool true ]} busy_world.

(** * Properties *)

(** ** The model on small inputs *)

Example truthy_values :
  truthy VUndefined = false ∧ truthy (VBool true) = true
  ∧ truthy (VString "") = false ∧ truthy (VTerminal 0) = true.
Proof. done. Qed.

Example set_add_twice : JSSet.add 1 (JSSet.add 1 (JSSet.add 0 JSSet.empty)) = [Some 0; Some 1].
Proof. reflexivity. Qed.

Example set_delete_keeps_slot :
  JSSet.delete 0 [Some 0; Some 1] = [None; Some 1]
  ∧ JSSet.values (JSSet.delete 0 [Some 0; Some 1]) = [1]
  ∧ JSSet.add 0 (JSSet.delete 0 [Some 0; Some 1]) = [None; Some 1; Some 0].
Proof. done. Qed.

Example generateNewUri_first :
  Terminal.generateNewUri initial_world = Ok "terminal://0/" (with_uuid_count 1 initial_world).
Proof. reflexivity. Qed.

Example addDefaultPosition_center :
  Terminal.addDefaultPosition ∅ (placed_world "Center" (Some 4))
    = Ok {[ "pane" := VPane 4 ]} (placed_world "Center" (Some 4)).
Proof. reflexivity. Qed.

Example addDefaultPosition_given_pane :
  Terminal.addDefaultPosition {[ "pane" := VPane 7 ]} (placed_world "Bottom Dock" (Some 4))
    = Ok {[ "pane" := VPane 7 ]} (placed_world "Bottom Dock" (Some 4)).
Proof. reflexivity. Qed.

Example addDefaultPosition_split :
  Terminal.addDefaultPosition {[ "pane" := VPane 7 ]} (placed_world "Split Left" (Some 4))
    = Ok (<[ "split" := VString "left" ]> {[ "pane" := VPane 7 ]})
         (placed_world "Split Left" (Some 4)).
Proof. reflexivity. Qed.

Example center_wins_over_bottom :
  world_of (Terminal.getActiveTerminal (world_after two_focused initial_world))
    = world_after two_focused initial_world
  ∧ List.find (λ t, Model.isActiveTerminal t
                      (world_after (two_focused ++ [RecomputeActive]) initial_world))
      (JSSet.values (terminalsSet (world_after two_focused initial_world))) = Some 1.
Proof. split; [reflexivity | vm_compute; reflexivity]. Qed.

Example exitAllTerminals_two :
  (calls ∘ world_of) <$> Terminal.exitAllTerminals 3 two_sessions
    = Some [CallExit 0; CallExit 1]
  ∧ (terminalsSet ∘ world_of) <$> Terminal.exitAllTerminals 3 two_sessions
    = Some [None; None].
Proof. split; vm_compute; reflexivity. Qed.

Example exitAllTerminals_out_of_fuel :
  Terminal.exitAllTerminals 2 two_sessions = None.
Proof. vm_compute. reflexivity. Qed.

Example copy_from_active :
  calls (world_of (Terminal.copy (with_heap {[ 0 := Model.set_isActive true idle_model ]} idle_world)))
    = [CallCopyFromTerminal 0; CallClipboardWrite "ls"].
Proof. vm_compute. reflexivity. Qed.

(** ** The Set *)

Lemma elem_of_values (s : JSSet.t) (t : ref) : t ∈ JSSet.values s ↔ Some t ∈ s.
Proof.
  unfold JSSet.values. rewrite list_elem_of_omap. split.
  - intros [[x|] [Hin Hx]]; by simplify_eq/=.
  - intros Hin. exists (Some t). done.
Qed.

Lemma elem_of_values_add (s : JSSet.t) (t t' : ref) :
  t' ∈ JSSet.values (JSSet.add t s) ↔ t' = t ∨ t' ∈ JSSet.values s.
Proof.
  rewrite !elem_of_values. unfold JSSet.add, JSSet.has.
  case_bool_decide as Hin.
  - split; [by right | intros [-> | ?]; done].
  - rewrite elem_of_app, list_elem_of_singleton. split.
    + intros [? | [= ->]]; auto.
    + intros [-> | ?]; auto.
Qed.

Lemma elem_of_values_delete (s : JSSet.t) (t t' : ref) :
  t' ∈ JSSet.values (JSSet.delete t s) ↔ t' ≠ t ∧ t' ∈ JSSet.values s.
Proof.
  rewrite !elem_of_values. unfold JSSet.delete. rewrite list_elem_of_fmap. split.
  - intros [e [He Hin]]. case_decide; [done |]. subst e. split; [congruence | done].
  - intros [Hne Hin]. exists (Some t'). split; [| done].
    case_decide; congruence.
Qed.

(** ** The recomputation *)

Lemma lookup_foldr_mark (target : option ref) (l : list ref)
    (h : gmap ref TerminalModel) (k : ref) :
  foldr (Model.mark target) h l !! k =
    if decide (k ∈ l)
    then Model.set_isActive (bool_decide (target = Some k)) <$> h !! k
    else h !! k.
Proof.
  induction l as [| t l IH]; cbn [foldr].
  - rewrite decide_False; [done | apply not_elem_of_nil].
  - unfold Model.mark at 1. rewrite lookup_alter.
    destruct (decide (t = k)) as [-> | Hne].
    + rewrite decide_True by left. rewrite IH.
      case_decide; [| done].
      by destruct (h !! k).
    + rewrite IH. destruct (decide (k ∈ l)) as [Hin | Hin].
      * rewrite decide_True by (by right). done.
      * rewrite decide_False; [done |].
        rewrite elem_of_cons. intros [? | ?]; congruence.
Qed.

Lemma uri_foldr_mark (target : option ref) (l : list ref)
    (h : gmap ref TerminalModel) (k : ref) :
  uri <$> foldr (Model.mark target) h l !! k = uri <$> h !! k.
Proof.
  rewrite lookup_foldr_mark. case_decide; [| done]. by destruct (h !! k).
Qed.

(** ** Creation of a Session *)

Lemma new_spec (u : string) (w : World) :
  ∃ w', Model.new u w = Ok (fresh (dom (heap w))) w'
    ∧ heap w !! fresh (dom (heap w)) = None
    ∧ uri <$> heap w' !! fresh (dom (heap w)) = Some u
    ∧ fresh (dom (heap w)) ∈ JSSet.values (terminalsSet w')
    ∧ calls w' = calls w.
Proof.
  eexists. split; [reflexivity |]. simpl.
  split; [apply not_elem_of_dom, is_fresh |].
  split.
  - rewrite uri_foldr_mark. by rewrite lookup_insert_eq.
  - split; [| done]. apply elem_of_values_add. by left.
Qed.

(** ** Addresses *)

Lemma prefix_iff_append (p s : string) :
  String.prefix p s = true ↔ ∃ rest, s = p +:+ rest.
Proof.
  revert s. induction p as [| a p IH]; intros s.
  - split; [intros _; by exists s |]. intros _. by destruct s.
  - destruct s as [| b s]; simpl.
    + split; [done | intros [rest Hrest]; discriminate].
    + destruct (Ascii.ascii_dec a b) as [-> | Hne].
      * rewrite IH. split; intros [rest Hrest]; exists rest.
        -- by rewrite Hrest.
        -- by injection Hrest.
      * split; [done | intros [rest Hrest]; by injection Hrest].
Qed.

Lemma append_sep_inj (a b : string) : a +:+ "/" = b +:+ "/" → a = b.
Proof.
  revert b. induction a as [| c a IH]; intros [| d b] Heq; simpl in Heq.
  - done.
  - injection Heq as _ Heq. by destruct b.
  - injection Heq as _ Heq. by destruct a.
  - injection Heq as -> Heq. f_equal. by apply IH.
Qed.

(** [generateNewUri] puts the token handed out by [uuidv4()] between the
    base uri and a slash, and consumes that token. *)
Lemma generateNewUri_shape (w : World) :
  Terminal.generateNewUri w =
    Ok ("terminal://" +:+ uuid_source w (uuid_count w) +:+ "/")
       (with_uuid_count (S (uuid_count w)) w).
Proof. reflexivity. Qed.

(** Two generated addresses coincide only if the two tokens do. *)
Lemma generated_address_inj (token1 token2 : string) :
  Terminal.TERMINAL_BASE_URI +:+ token1 +:+ "/" =
  Terminal.TERMINAL_BASE_URI +:+ token2 +:+ "/" → token1 = token2.
Proof.
  intros Heq. apply String.app_inj in Heq. by apply append_sep_inj.
Qed.

Lemma generate_many_tokens (n : nat) (w : World) :
  (generate_many n w).1 =
    (λ i, Terminal.TERMINAL_BASE_URI +:+ uuid_source w (uuid_count w + i) +:+ "/") <$> seq 0 n.
Proof.
  revert w. induction n as [| n IH]; intros w; [done |].
  cbn [generate_many]. rewrite generateNewUri_shape.
  specialize (IH (with_uuid_count (S (uuid_count w)) w)).
  destruct (generate_many n _) as [us w''] eqn:Hgen. simpl in *.
  rewrite IH. rewrite Nat.add_0_r. f_equal.
  rewrite <- fmap_S_seq, <- list_fmap_compose.
  apply list_fmap_ext. intros i x _. simpl.
  by rewrite Nat.add_succ_r.
Qed.

(** X2: a run of calls of [generateNewUri] returns pairwise distinct
    addresses as long as [uuidv4()] hands out pairwise distinct tokens. *)
Lemma generate_many_NoDup (n : nat) (w : World) :
  (∀ i j, i < n → j < n → uuid_source w (uuid_count w + i) = uuid_source w (uuid_count w + j) → i = j) →
  NoDup (generate_many n w).1.
Proof.
  intros Hinj. rewrite generate_many_tokens.
  apply NoDup_fmap_2_strong; [| apply NoDup_seq].
  intros i j Hi Hj Heq.
  apply elem_of_seq in Hi, Hj.
  apply generated_address_inj in Heq. apply Hinj; [lia | lia | done].
Qed.

(** ** Commands on the active Session *)

(** C6: when no Session is active, [close], [restart], [copy] and [paste]
    return normally and leave the whole state as it was: no call reaches
    a Session or the clipboard. *)
Theorem nothing_active_is_noop (w : World) :
  Terminal.getActiveTerminal w = Ok None w →
  Terminal.close w = Ok () w ∧ Terminal.restart w = Ok () w
  ∧ Terminal.copy w = Ok () w ∧ Terminal.paste w = Ok () w.
Proof.
  intros Hnone.
  unfold Terminal.close, Terminal.restart, Terminal.copy, Terminal.paste.
  unfold mbind, M_bind. rewrite Hnone. done.
Qed.

Lemma nothing_active_is_noop_witness :
  Terminal.close idle_world = Ok () idle_world
  ∧ Terminal.restart idle_world = Ok () idle_world
  ∧ Terminal.copy idle_world = Ok () idle_world
  ∧ Terminal.paste idle_world = Ok () idle_world.
Proof. apply (nothing_active_is_noop idle_world). reflexivity. Defined.

(** ** Restore and open by address *)

(** C7: with [allowRelaunchingTerminalsOnStartup] off the serialized
    address is dropped and the state is untouched; with it on a Session
    that did not exist before is returned, bound to that very address and
    member of the set. *)
Theorem deserialize_follows_policy (u : string) (w : World) :
  (truthy (allowRelaunching w) = false →
     Terminal.deserializeTerminalModel u w = Ok None w)
  ∧ (truthy (allowRelaunching w) = true →
     ∃ t w', Terminal.deserializeTerminalModel u w = Ok (Some t) w'
       ∧ heap w !! t = None
       ∧ uri <$> heap w' !! t = Some u
       ∧ t ∈ JSSet.values (terminalsSet w')).
Proof.
  unfold Terminal.deserializeTerminalModel, allowRelaunching, mbind, M_bind, config_get, get.
  split; intros ->; [done |].
  destruct (new_spec u w) as (w' & Hnew & Hfresh & Huri & Hin & _).
  exists (fresh (dom (heap w))), w'. rewrite Hnew. done.
Qed.

Lemma deserialize_follows_policy_witness :
  Terminal.deserializeTerminalModel "terminal://a/" initial_world = Ok None initial_world
  ∧ ∃ t w', Terminal.deserializeTerminalModel "terminal://a/" relaunch_world = Ok (Some t) w'
       ∧ heap relaunch_world !! t = None
       ∧ uri <$> heap w' !! t = Some "terminal://a/"
       ∧ t ∈ JSSet.values (terminalsSet w').
Proof.
  split.
  - apply (deserialize_follows_policy "terminal://a/" initial_world). reflexivity.
  - apply (deserialize_follows_policy "terminal://a/" relaunch_world). reflexivity.
Defined.

(** C9: the opener recognizes exactly the strings that begin with
    [terminal://].  For those it returns a Session that did not exist
    before, bound to the string it was given; for all others it returns
    nothing and the state is untouched. *)
Theorem opener_recognizes_prefix (u : string) (w : World) :
  ((∃ rest, u = "terminal://" +:+ rest) →
     ∃ t w', Terminal.opener u w = Ok (Some t) w'
       ∧ heap w !! t = None
       ∧ uri <$> heap w' !! t = Some u
       ∧ t ∈ JSSet.values (terminalsSet w'))
  ∧ ((¬ ∃ rest, u = "terminal://" +:+ rest) →
     Terminal.opener u w = Ok None w).
Proof.
  unfold Terminal.opener. split; intros Hpre.
  - apply prefix_iff_append in Hpre. unfold Terminal.TERMINAL_BASE_URI. rewrite Hpre.
    destruct (new_spec u w) as (w' & Hnew & Hfresh & Huri & Hin & _).
    exists (fresh (dom (heap w))), w'. unfold mbind, M_bind. rewrite Hnew. done.
  - destruct (String.prefix Terminal.TERMINAL_BASE_URI u) eqn:Hp; [| done].
    apply prefix_iff_append in Hp. done.
Qed.

Lemma opener_recognizes_prefix_witness :
  (∃ t w', Terminal.opener "terminal://a/" initial_world = Ok (Some t) w'
       ∧ heap initial_world !! t = None
       ∧ uri <$> heap w' !! t = Some "terminal://a/"
       ∧ t ∈ JSSet.values (terminalsSet w'))
  ∧ Terminal.opener "Terminal://a/" initial_world = Ok None initial_world.
Proof.
  split.
  - apply (opener_recognizes_prefix "terminal://a/" initial_world).
    by exists "a/".
  - apply (opener_recognizes_prefix "Terminal://a/" initial_world).
    intros [rest Hrest]. discriminate.
Defined.

(** ** Default placement *)

Lemma set_pane_unless_given_keeps (p : option pane) (options : Options) (k : string) (v : value) :
  options !! k = Some v → Terminal.set_pane_unless_given p options !! k = Some v.
Proof.
  intros Hk. unfold Terminal.set_pane_unless_given, has_key.
  destruct p as [p' |]; [| done].
  case_bool_decide as Hpane; simpl; [done |].
  rewrite lookup_insert_ne; [done |].
  intros <-. apply Hpane. by exists v.
Qed.

Lemma set_split_unless_given_keeps (dir : string) (options : Options) (k : string) (v : value) :
  options !! k = Some v → Terminal.set_split_unless_given dir options !! k = Some v.
Proof.
  intros Hk. unfold Terminal.set_split_unless_given, has_key.
  case_bool_decide as Hsplit; simpl; [done |].
  rewrite lookup_insert_ne; [done |].
  intros <-. apply Hsplit. by exists v.
Qed.

Lemma addDefaultPosition_pure (options : Options) (w : World) :
  ∃ options', Terminal.addDefaultPosition options w = Ok options' w.
Proof.
  unfold Terminal.addDefaultPosition, mbind, M_bind, config_get, get, getActivePane.
  repeat case_decide; by eexists.
Qed.

(** C10: [addDefaultPosition] never throws and touches nothing but the
    options.  Every key the caller supplied, [pane] and [split] among
    them, keeps the caller's value.  The options come back unchanged when
    the configured position is none of the eight known ones, and when it
    designates the workspace or a dock that has no active pane. *)
Theorem addDefaultPosition_frame (options : Options) (w : World) :
  ∃ options', Terminal.addDefaultPosition options w = Ok options' w
    ∧ (∀ v, options !! "pane" = Some v → options' !! "pane" = Some v)
    ∧ (∀ v, options !! "split" = Some v → options' !! "split" = Some v)
    ∧ (∀ k v, options !! k = Some v → options' !! k = Some v)
    ∧ (defaultOpenPosition w ∉ VString <$> recognized_positions → options' = options)
    ∧ (∀ position c, defaultOpenPosition w = VString position →
         designated position = Some c →
         activePane (workspace w c) = None → options' = options).
Proof.
  unfold Terminal.addDefaultPosition, mbind, M_bind, config_get, get, getActivePane.
  fold (defaultOpenPosition w).
  destruct (defaultOpenPosition w) as [| | b | position | p | t | o];
    unfold recognized_positions;
    repeat case_decide; simplify_eq;
    (eexists; split; [reflexivity |]; split_and!;
     [ intros v; first [apply set_pane_unless_given_keeps
                       | apply set_split_unless_given_keeps | done]
     | intros v; first [apply set_pane_unless_given_keeps
                       | apply set_split_unless_given_keeps | done]
     | intros k v; first [apply set_pane_unless_given_keeps
                         | apply set_split_unless_given_keeps | done]
     | intros Hnot; first [done | exfalso; apply Hnot; set_solver]
     | intros position' c Hpos Hdes Hpane; simplify_eq;
       first [done | vm_compute in Hdes; simplify_eq; by rewrite Hpane] ]).
Qed.

Lemma addDefaultPosition_frame_witness :
  ∃ options', Terminal.addDefaultPosition {[ "pane" := VPane 7 ]} (placed_world "Left Dock" None)
                = Ok options' (placed_world "Left Dock" None)
    ∧ options' = {[ "pane" := VPane 7 ]}.
Proof.
  destruct (addDefaultPosition_frame {[ "pane" := VPane 7 ]} (placed_world "Left Dock" None))
    as (options' & Hrun & _ & _ & _ & _ & Hnone).
  exists options'. split; [exact Hrun |].
  apply (Hnone "Left Dock" LeftDock); reflexivity.
Defined.

(** ** The active Session *)

Lemma recalculateActive_ok (w : World) :
  ∃ w', Model.recalculateActive w = Ok () w'
    ∧ terminalsSet w' = terminalsSet w
    ∧ workspace w' = workspace w
    ∧ calls w' = calls w
    ∧ (∀ t, Model.isActiveTerminal t w' =
         if decide (registered t w)
         then bool_decide (Model.active_candidate (workspace w) = Some t)
              && bool_decide (allocated t w)
         else Model.isActiveTerminal t w).
Proof.
  eexists. split; [reflexivity |]. simpl. split_and!; try done.
  intros t. unfold Model.isActiveTerminal. simpl.
  rewrite lookup_foldr_mark.
  destruct (decide (registered t w)) as [Hreg | Hreg];
    [rewrite decide_True by exact Hreg | by rewrite decide_False by exact Hreg].
  destruct (decide (allocated t w)) as [[m Hm] | Hno].
  - rewrite (bool_decide_eq_true_2 (allocated t w)) by (exists m; exact Hm).
    rewrite Hm. simpl. by rewrite andb_true_r.
  - rewrite (bool_decide_eq_false_2 (allocated t w)) by exact Hno.
    apply eq_None_not_Some in Hno. rewrite Hno. simpl. by rewrite andb_false_r.
Qed.

(** After the recomputation an active Session of the registry is the
    candidate. *)
Lemma recalculateActive_unique (w w' : World) :
  Model.recalculateActive w = Ok () w' → at_most_one_active w'.
Proof.
  intros Hrun. destruct (recalculateActive_ok w) as (w'' & Hrun' & Hset & _ & _ & Hflag).
  rewrite Hrun in Hrun'. injection Hrun' as <-.
  intros t1 t2 Hr1 Hr2. unfold registered in Hr1, Hr2. rewrite Hset in Hr1, Hr2.
  rewrite !Hflag. rewrite !decide_True by done.
  intros [H1 _]%andb_true_iff [H2 _]%andb_true_iff.
  apply bool_decide_eq_true in H1, H2. congruence.
Qed.

(** Changes that touch neither the set nor a flag do not matter. *)
Lemma at_most_one_active_ext (w w' : World) :
  terminalsSet w' = terminalsSet w →
  (∀ t, Model.isActiveTerminal t w' = Model.isActiveTerminal t w) →
  at_most_one_active w → at_most_one_active w'.
Proof.
  intros Hset Hflag Hinv t1 t2. unfold registered. rewrite Hset, !Hflag. apply Hinv.
Qed.

Lemma at_most_one_active_delete (t : ref) (w : World) :
  at_most_one_active w →
  at_most_one_active (with_terminalsSet (JSSet.delete t (terminalsSet w)) w).
Proof.
  intros Hinv t1 t2. unfold registered. simpl.
  rewrite !elem_of_values_delete. intros [_ H1] [_ H2]. by apply Hinv.
Qed.

Lemma unregister_keeps (t : ref) (w : World) :
  at_most_one_active w →
  ∃ w', Model.unregister t w = Ok () w' ∧ at_most_one_active w'.
Proof.
  intros Hinv. unfold Model.unregister, mbind, M_bind, get, modify.
  destruct (Model.isActiveTerminal t w).
  - destruct (recalculateActive_ok (with_terminalsSet (JSSet.delete t (terminalsSet w)) w))
      as (w' & Hrun & _).
    exists w'. split; [done |]. by eapply recalculateActive_unique.
  - eexists. split; [reflexivity |]. by apply at_most_one_active_delete.
Qed.

Lemma isActiveTerminal_alter (f : TerminalModel → TerminalModel) (t t' : ref) (w : World) :
  (∀ m, isActive (f m) = isActive m) →
  Model.isActiveTerminal t' (with_heap (alter f t (heap w)) w) = Model.isActiveTerminal t' w.
Proof.
  intros Hf. unfold Model.isActiveTerminal. simpl. rewrite lookup_alter.
  case_decide; [subst |]; [| done]. destruct (heap w !! t'); simpl; [| done].
  by rewrite Hf.
Qed.

Lemma apply_op_keeps (op : RegistryOp) (w : World) :
  at_most_one_active w →
  ∃ w', apply_op op w = Ok () w' ∧ at_most_one_active w'.
Proof.
  intros Hinv. destruct op as [t | t | | ws | s | u | t]; simpl.
  - destruct (recalculateActive_ok (with_terminalsSet (JSSet.add t (terminalsSet w)) w))
      as (w' & Hrun & _).
    exists w'. split; [done |]. by eapply recalculateActive_unique.
  - by apply unregister_keeps.
  - destruct (recalculateActive_ok w) as (w' & Hrun & _).
    exists w'. split; [done |]. by eapply recalculateActive_unique.
  - eexists. split; [reflexivity |]. by eapply at_most_one_active_ext.
  - assert (∀ (m : M unit) w1, m w = Ok () w1 →
        ∃ w', (m ≫= λ _, Model.recalculateActive) w = Ok () w' ∧ at_most_one_active w') as Hthen.
    { intros m w1 Hm. unfold mbind, M_bind. rewrite Hm.
      destruct (recalculateActive_ok w1) as (w' & Hrun & _).
      exists w'. split; [done |]. by eapply recalculateActive_unique. }
    destruct s as [p | p [t | o] | [[t | o] |] | dock [|]]; simpl.
    + destruct (recalculateActive_ok w) as (w' & Hrun & _).
      exists w'. split; [done |]. by eapply recalculateActive_unique.
    + by eapply Hthen.
    + by eapply Hthen.
    + by eapply Hthen.
    + by eapply Hthen.
    + by eapply Hthen.
    + unfold getActivePaneItem, get.
      destruct (activePaneItem (workspace w dock)) as [[t | o] |] eqn:Hitem;
        eapply Hthen; unfold mbind, M_bind; rewrite Hitem; reflexivity.
    + by eapply Hthen.
  - unfold Terminal.opener.
    destruct (String.prefix Terminal.TERMINAL_BASE_URI u).
    + unfold Model.new, Model.register, mbind, M_bind, mret, M_ret, modify.
      match goal with |- context [Model.recalculateActive ?w0] =>
        destruct (recalculateActive_ok w0) as (w' & Hrun & _) end.
      exists w'. rewrite Hrun. split; [done |]. by eapply recalculateActive_unique.
    + by exists w.
  - unfold Model.exit, mbind, M_bind, record, modify.
    apply unregister_keeps.
    eapply at_most_one_active_ext; [| | exact Hinv]; [done |].
    intros t'. by rewrite isActiveTerminal_alter.
Qed.

Lemma run_ops_keeps (ops : list RegistryOp) (w : World) :
  at_most_one_active w →
  ∃ w', run_ops ops w = Ok () w' ∧ at_most_one_active w'.
Proof.
  revert w. induction ops as [| op ops IH]; intros w Hinv.
  - by exists w.
  - destruct (apply_op_keeps op w Hinv) as (w1 & Hop & Hinv1).
    destruct (IH w1 Hinv1) as (w' & Hrun & Hinv').
    exists w'. split; [| done].
    unfold run_ops in *. simpl. unfold mbind, M_bind at 1. by rewrite Hop.
Qed.

Lemma getActiveTerminal_find (w : World) :
  Terminal.getActiveTerminal w =
    Ok (List.find (λ t, Model.isActiveTerminal t w) (JSSet.values (terminalsSet w))) w.
Proof. reflexivity. Qed.

Lemma getActiveTerminal_some (w : World) (t : ref) :
  at_most_one_active w →
  Terminal.getActiveTerminal w = Ok (Some t) w
  ↔ registered t w ∧ Model.isActiveTerminal t w = true.
Proof.
  intros Hinv. rewrite getActiveTerminal_find. split.
  - intros [= Hfind]. apply find_some in Hfind as [Hin Hact].
    by apply list_elem_of_In in Hin.
  - intros [Hreg Hact].
    destruct (List.find _ _) as [t' |] eqn:Hfind.
    + apply find_some in Hfind as [Hin Hact'].
      apply list_elem_of_In in Hin. by rewrite (Hinv t t').
    + assert (Model.isActiveTerminal t w = false) as Hno.
      { apply (find_none _ _ Hfind t). by apply list_elem_of_In. }
      congruence.
Qed.

Lemma getActiveTerminal_none (w : World) :
  Terminal.getActiveTerminal w = Ok None w
  ↔ ∀ t, registered t w → Model.isActiveTerminal t w = false.
Proof.
  rewrite getActiveTerminal_find. split.
  - intros [= Hfind] t Hreg.
    apply (find_none _ _ Hfind t). by apply list_elem_of_In.
  - intros Hnone. destruct (List.find _ _) as [t' |] eqn:Hfind; [| done].
    apply find_some in Hfind as [Hin Hact].
    apply list_elem_of_In in Hin. rewrite (Hnone t' Hin) in Hact. done.
Qed.

Lemma at_most_one_active_initial : at_most_one_active initial_world.
Proof. intros t1 t2 Hreg. by apply elem_of_nil in Hreg. Qed.

(** C1: whatever is done to the registry, one operation after the other,
    at most one of its Sessions is active afterwards, and
    [getActiveTerminal] returns exactly that Session, or nothing when no
    Session of the registry is active. *)
Theorem at_most_one_active_session (ops : list RegistryOp) (w : World) :
  at_most_one_active w →
  ∃ w', run_ops ops w = Ok () w'
    ∧ at_most_one_active w'
    ∧ (∀ t, Terminal.getActiveTerminal w' = Ok (Some t) w'
            ↔ registered t w' ∧ Model.isActiveTerminal t w' = true)
    ∧ (Terminal.getActiveTerminal w' = Ok None w'
            ↔ ∀ t, registered t w' → Model.isActiveTerminal t w' = false).
Proof.
  intros Hinv. destruct (run_ops_keeps ops w Hinv) as (w' & Hrun & Hinv').
  exists w'. split_and!; [done | done | |].
  - intros t. by apply getActiveTerminal_some.
  - apply getActiveTerminal_none.
Qed.

Lemma at_most_one_active_session_witness :
  ∃ w', run_ops (two_focused ++ [RecomputeActive; Exits 0]) initial_world = Ok () w'
    ∧ at_most_one_active w'
    ∧ (∀ t, Terminal.getActiveTerminal w' = Ok (Some t) w'
            ↔ registered t w' ∧ Model.isActiveTerminal t w' = true)
    ∧ (Terminal.getActiveTerminal w' = Ok None w'
            ↔ ∀ t, registered t w' → Model.isActiveTerminal t w' = false).
Proof.
  apply (at_most_one_active_session (two_focused ++ [RecomputeActive; Exits 0]) initial_world).
  intros t1 t2 Hreg. by apply elem_of_nil in Hreg.
Defined.

(** ** Exit of all Sessions *)

Lemma values_nil (s : JSSet.t) :
  (∀ j, j < length s → s !! j = Some None) → JSSet.values s = [].
Proof.
  intros Hall. apply elem_of_nil_inv. intros t Hin.
  apply elem_of_values, list_elem_of_lookup in Hin as [j Hj].
  pose proof (lookup_lt_Some _ _ _ Hj) as Hlt.
  specialize (Hall j Hlt). congruence.
Qed.

Lemma exit_spec (t : ref) (w : World) :
  ∃ w', Model.exit t w = Ok () w'
    ∧ terminalsSet w' = JSSet.delete t (terminalsSet w)
    ∧ calls w' = calls w ++ [CallExit t].
Proof.
  unfold Model.exit, Model.unregister, mbind, M_bind, record, modify, get.
  match goal with |- context [if ?b then _ else _] => destruct b end.
  - match goal with |- context [Model.recalculateActive ?w0] =>
      destruct (recalculateActive_ok w0) as (w' & Hrun & Hset & _ & Hcalls & _) end.
    exists w'. rewrite Hrun, Hset, Hcalls. done.
  - eexists. done.
Qed.

Lemma exit_loop (n i : nat) (w : World) :
  length (terminalsSet w) - i < n →
  (∀ j, j < i → terminalsSet w !! j = Some None) →
  ∃ w', Terminal.set_for_of n i Model.exit w = Some (Ok () w')
    ∧ JSSet.values (terminalsSet w') = []
    ∧ (∀ c, c ∈ calls w → c ∈ calls w')
    ∧ (∀ t, registered t w → CallExit t ∈ calls w')
    ∧ (JSSet.values (terminalsSet w) = [] → w' = w).
Proof.
  revert i w. induction n as [| n IH]; intros i w Hfuel Hdone; [lia |].
  cbn [Terminal.set_for_of].
  destruct (terminalsSet w !! i) as [[t |] |] eqn:Hi.
  - destruct (exit_spec t w) as (w1 & Hexit & Hset & Hcalls). rewrite Hexit.
    destruct (IH (S i) w1) as (w' & Hrun & Hempty & Hmono & Hall & _).
    { rewrite Hset. unfold JSSet.delete. rewrite length_fmap.
      apply lookup_lt_Some in Hi. lia. }
    { intros j Hj. rewrite Hset. unfold JSSet.delete. rewrite list_lookup_fmap.
      destruct (decide (j = i)) as [-> | Hne].
      - rewrite Hi. simpl. by rewrite decide_True.
      - rewrite Hdone by lia. done. }
    exists w'. split_and!; [done | done | | |].
    + intros c Hc. apply Hmono. rewrite Hcalls. set_solver.
    + intros t' Hreg. destruct (decide (t' = t)) as [-> | Hne].
      * apply Hmono. rewrite Hcalls. set_solver.
      * apply Hall. unfold registered. rewrite Hset.
        by apply elem_of_values_delete.
    + intros Hnil. assert (t ∈ JSSet.values (terminalsSet w)) as Hin.
      { apply elem_of_values, list_elem_of_lookup. by exists i. }
      rewrite Hnil in Hin. by apply elem_of_nil in Hin.
  - destruct (IH (S i) w) as (w' & Hrun & Hempty & Hmono & Hall & Hnil).
    { apply lookup_lt_Some in Hi. lia. }
    { intros j Hj. destruct (decide (j = i)) as [-> | Hne]; [done |].
      apply Hdone. lia. }
    by exists w'.
  - apply lookup_ge_None in Hi.
    assert (JSSet.values (terminalsSet w) = []) as Hnil.
    { apply values_nil. intros j Hj. apply Hdone. lia. }
    exists w. split_and!; try done.
    intros t Hreg. unfold registered in Hreg. rewrite Hnil in Hreg.
    by apply elem_of_nil in Hreg.
Qed.

(** The walk over the live set with any [exit] that takes entries out of
    the set, its own among them, and never puts one in. *)
Section LiveIteration.

Variable exit : ref → M unit.

Hypothesis exit_removes : ∀ t w, ∃ w',
  exit t w = Ok () w'
  ∧ length (terminalsSet w') = length (terminalsSet w)
  ∧ (∀ j, terminalsSet w' !! j = terminalsSet w !! j ∨ terminalsSet w' !! j = Some None)
  ∧ Some t ∉ terminalsSet w'.

Lemma set_for_of_tolerates_removal (n i : nat) (w : World) :
  length (terminalsSet w) - i < n →
  (∀ j, j < i → terminalsSet w !! j = Some None) →
  ∃ w', Terminal.set_for_of n i exit w = Some (Ok () w')
    ∧ JSSet.values (terminalsSet w') = [].
Proof.
  revert i w. induction n as [| n IH]; intros i w Hfuel Hdone; [lia |].
  cbn [Terminal.set_for_of].
  destruct (terminalsSet w !! i) as [[t |] |] eqn:Hi.
  - destruct (exit_removes t w) as (w1 & Hexit & Hlen & Hentries & Hgone).
    rewrite Hexit. apply IH.
    + apply lookup_lt_Some in Hi. lia.
    + intros j Hj. destruct (Hentries j) as [Hsame | Hnone]; [| done].
      destruct (decide (j = i)) as [-> | Hne].
      * exfalso. apply Hgone. apply list_elem_of_lookup. exists i. congruence.
      * rewrite Hsame. apply Hdone. lia.
  - apply IH.
    + apply lookup_lt_Some in Hi. lia.
    + intros j Hj. destruct (decide (j = i)) as [-> | Hne]; [done |].
      apply Hdone. lia.
  - apply lookup_ge_None in Hi. exists w. split; [done |].
    apply values_nil. intros j Hj. apply Hdone. lia.
Qed.

End LiveIteration.

Lemma exit_removes_itself (t : ref) (w : World) :
  ∃ w', Model.exit t w = Ok () w'
    ∧ length (terminalsSet w') = length (terminalsSet w)
    ∧ (∀ j, terminalsSet w' !! j = terminalsSet w !! j ∨ terminalsSet w' !! j = Some None)
    ∧ Some t ∉ terminalsSet w'.
Proof.
  destruct (exit_spec t w) as (w' & Hexit & Hset & _).
  exists w'. rewrite Hset. unfold JSSet.delete. split_and!; [done | | |].
  - by rewrite length_fmap.
  - intros j. rewrite list_lookup_fmap.
    destruct (terminalsSet w !! j) as [e |]; simpl; [| by left].
    case_decide; [by right | by left].
  - rewrite list_elem_of_fmap. intros [e [He _]]. case_decide; congruence.
Qed.

Lemma exitAllTerminals_terminates (n : nat) (w : World) :
  length (terminalsSet w) < n →
  ∃ w', Terminal.exitAllTerminals n w = Some (Ok () w')
    ∧ JSSet.values (terminalsSet w') = [].
Proof.
  intros Hfuel.
  apply (set_for_of_tolerates_removal Model.exit exit_removes_itself); [lia | lia].
Qed.

Lemma delete_absent (t : ref) (s : JSSet.t) : Some t ∉ s → JSSet.delete t s = s.
Proof.
  unfold JSSet.delete. induction s as [| e s IH]; intros Hnot; [done |].
  apply not_elem_of_cons in Hnot as [Hne Hnot]. simpl.
  rewrite decide_False by done. f_equal. by apply IH.
Qed.

Lemma exit_loop_snapshot (n i : nat) (w : World) :
  length (terminalsSet w) - i < n →
  NoDup (JSSet.values (drop i (terminalsSet w))) →
  Terminal.set_for_of n i Model.exit w =
    Some (for_of (JSSet.values (drop i (terminalsSet w))) Model.exit w).
Proof.
  revert i w. induction n as [| n IH]; intros i w Hfuel Hnodup; [lia |].
  cbn [Terminal.set_for_of].
  destruct (terminalsSet w !! i) as [[t |] |] eqn:Hi.
  - rewrite (drop_S _ _ _ Hi) in Hnodup |- *.
    change (JSSet.values (Some t :: drop (S i) (terminalsSet w)))
      with (t :: JSSet.values (drop (S i) (terminalsSet w))) in Hnodup |- *.
    apply NoDup_cons in Hnodup as [Hfresh Hnodup].
    destruct (exit_spec t w) as (w1 & Hexit & Hset & _).
    cbn [for_of]. unfold mbind at 1, M_bind at 1. rewrite Hexit.
    assert (drop (S i) (terminalsSet w1) = drop (S i) (terminalsSet w)) as Hrest.
    { rewrite Hset. unfold JSSet.delete. rewrite <- fmap_drop.
      apply delete_absent. by rewrite <- elem_of_values. }
    rewrite <- Hrest. apply IH.
    + rewrite Hset. unfold JSSet.delete. rewrite length_fmap.
      apply lookup_lt_Some in Hi. lia.
    + by rewrite Hrest.
  - rewrite (drop_S _ _ _ Hi) in Hnodup |- *.
    change (JSSet.values (None :: drop (S i) (terminalsSet w)))
      with (JSSet.values (drop (S i) (terminalsSet w))) in Hnodup |- *.
    apply IH; [| done]. apply lookup_lt_Some in Hi. lia.
  - apply lookup_ge_None in Hi. by rewrite drop_ge.
Qed.

(** C3: [exitAllTerminals] walks the set while the Sessions leave it.  On
    every set, the empty one included, the walk ends without an exception;
    every Session of the set has received [exit] and the registry is empty
    afterwards; with no Session in the set nothing changes at all.  Each
    Session removing itself under the iterator, the walk makes the calls
    that a walk over a copy of the set, taken at the start, makes, and
    ends in the same state.  Nor does the walk throw or leave a Session
    behind when an [exit] takes further Sessions out of the set while the
    iterator runs. *)
Theorem exitAllTerminals_walks_as_snapshot (w : World) (extra : nat) :
  (∃ w', Terminal.exitAllTerminals (S (length (terminalsSet w)) + extra) w = Some (Ok () w')
     ∧ (NoDup (JSSet.values (terminalsSet w)) → exitAll_snapshot Model.exit w = Ok () w')
     ∧ JSSet.values (terminalsSet w') = []
     ∧ (∀ t, registered t w → CallExit t ∈ calls w')
     ∧ (JSSet.values (terminalsSet w) = [] → w' = w))
  ∧ (∀ exit : ref → M unit,
       (∀ t w0, ∃ w1, exit t w0 = Ok () w1
          ∧ length (terminalsSet w1) = length (terminalsSet w0)
          ∧ (∀ j, terminalsSet w1 !! j = terminalsSet w0 !! j
                  ∨ terminalsSet w1 !! j = Some None)
          ∧ Some t ∉ terminalsSet w1) →
       ∃ w', Terminal.exitAllTerminals_with exit (S (length (terminalsSet w)) + extra) w
               = Some (Ok () w')
         ∧ JSSet.values (terminalsSet w') = []).
Proof.
  split.
  - destruct (exit_loop (S (length (terminalsSet w)) + extra) 0 w)
      as (w' & Hrun & Hempty & _ & Hall & Hnil); [lia | lia |].
    exists w'. split_and!; try done.
    intros Hnodup.
    pose proof (exit_loop_snapshot (S (length (terminalsSet w)) + extra) 0 w) as Hsnap.
    rewrite Hrun in Hsnap. symmetry. apply (inj Some). apply Hsnap; [lia | done].
  - intros exit Hexit.
    apply (set_for_of_tolerates_removal exit Hexit); lia.
Qed.

Lemma exitAllTerminals_walks_as_snapshot_witness :
  ∃ w', Terminal.exitAllTerminals 3 two_sessions = Some (Ok () w')
    ∧ exitAll_snapshot Model.exit two_sessions = Ok () w'
    ∧ JSSet.values (terminalsSet w') = []
    ∧ CallExit 1 ∈ calls w'.
Proof.
  destruct (exitAllTerminals_walks_as_snapshot two_sessions 0)
    as [(w' & Hrun & Hsnap & Hempty & Hall & _) _].
  exists w'. split_and!; [exact Hrun | | exact Hempty |].
  - apply Hsnap. apply NoDup_cons. split; [| apply NoDup_singleton].
    intros Hin%list_elem_of_singleton. discriminate.
  - apply Hall. unfold registered. simpl. set_solver.
Defined.

(** What the walk over the set itself would do otherwise: were the [exit]
    of Session 0 to take Session 1 out of the set as well, the iterator
    would never reach Session 1, whereas a walk over a copy would call its
    [exit] too. *)
Remark live_walk_skips_removed_entries :
  (∃ w', Terminal.exitAllTerminals_with (exit_along_with 1) 3 two_sessions = Some (Ok () w')
      ∧ calls w' = [CallExit 0])
  ∧ (∃ w', exitAll_snapshot (exit_along_with 1) two_sessions = Ok () w'
      ∧ calls w' = [CallExit 0; CallExit 1]).
Proof. split; eexists; split; reflexivity. Qed.

(** ** Priority of the containers *)










(** ** Running commands *)

Lemma submit_all_spec (t : ref) (commands : list string) (v : value) (w : World) :
  submit_all t commands v w =
    Ok Fulfilled (with_calls (calls w ++ (CallRunCommand t <$> commands)) w).
Proof.
  unfold submit_all, mbind, M_bind.
  assert (∀ w, for_of commands (λ command, invoke (Some t) (Model.runCommand command)) w =
               Ok () (with_calls (calls w ++ (CallRunCommand t <$> commands)) w)) as ->; [| done].
  clear w. induction commands as [| command commands IH]; intros w.
  - simpl. rewrite app_nil_r. by destruct w.
  - cbn [for_of]. unfold mbind, M_bind. simpl. rewrite IH. simpl.
    by rewrite <- app_assoc.
Qed.

Lemma submissions_app (w : World) (l : list Call) :
  submissions (with_calls (calls w ++ l) w) =
  submissions w ++ omap submission l.
Proof. unfold submissions. simpl. apply omap_app. Qed.

Lemma submissions_submit (t : ref) (commands : list string) (w : World) :
  submissions (with_calls (calls w ++ (CallRunCommand t <$> commands)) w) =
  submissions w ++ ((λ command, (t, command)) <$> commands).
Proof.
  rewrite submissions_app. f_equal.
  induction commands as [| command commands IH]; [done |].
  simpl. f_equal. apply IH.
Qed.

(** The wait on [initializedPromise] starts without a call to anyone. *)
Lemma runCommands_await_spec (t : ref) (commands : list string) (w : World) :
  async (Terminal.runCommands_await (Some t) commands) w =
    (Pending (InitializedPromise t) (submit_all t commands), w).
Proof. reflexivity. Qed.

(** Only a settlement resumes a suspended call. *)
Lemma deliver_keeps_pending (e : Event) (p : Promise) (k : value → M Task) (w : World) :
  ¬ settles p e → (deliver e (Pending p k, w)).1 = Pending p k.
Proof.
  intros Hother. destruct e as [q s | op |]; [| done | done].
  simpl. case_decide as Heq; [| done].
  subst q. exfalso. apply Hother. by exists s.
Qed.

Lemma submissions_calls (w w' : World) (l : list Call) :
  calls w' = calls w ++ l → omap submission l = [] → submissions w' = submissions w.
Proof.
  intros Hcalls Hl. unfold submissions. rewrite Hcalls, omap_app, Hl. apply app_nil_r.
Qed.

Lemma unregister_calls (t : ref) (w : World) :
  calls (world_of (Model.unregister t w)) = calls w.
Proof.
  unfold Model.unregister, mbind, M_bind, get, modify.
  by destruct (Model.isActiveTerminal t w).
Qed.

Lemma apply_op_submissions (op : RegistryOp) (w : World) :
  submissions (world_of (apply_op op w)) = submissions w.
Proof.
  destruct op as [t | t | | ws | s | u | t]; simpl.
  - done.
  - unfold submissions. by rewrite unregister_calls.
  - done.
  - done.
  - destruct s as [p | p [t | o] | [[t | o] |] | dock [|]]; simpl; try done.
    + by eapply submissions_calls with (l := [CallSetNewPane t p]).
    + by eapply submissions_calls with (l := [CallFocusOnTerminal t]).
    + unfold getActivePaneItem, get, mbind, M_bind.
      destruct (activePaneItem (workspace w dock)) as [[t | o] |]; simpl; try done.
      by eapply submissions_calls with (l := [CallFocusOnTerminal t]).
  - unfold Terminal.opener.
    by destruct (String.prefix Terminal.TERMINAL_BASE_URI u).
  - destruct (exit_spec t w) as (w' & -> & _ & Hcalls). simpl.
    by eapply submissions_calls.
Qed.

Lemma close_submissions (w : World) :
  submissions (world_of (Terminal.close w)) = submissions w.
Proof.
  unfold Terminal.close, mbind, M_bind. rewrite getActiveTerminal_find.
  destruct (List.find _ _) as [t |]; simpl; [| done].
  apply (apply_op_submissions (Exits t)).
Qed.

(** While a call waits, nothing but the settlement it waits for makes it
    go on, and nothing is submitted on its behalf. *)
Lemma suspended_until_settled (e : Event) (p : Promise) (k : value → M Task) (w : World) :
  ¬ settles p e →
  (deliver e (Pending p k, w)).1 = Pending p k
  ∧ submissions (deliver e (Pending p k, w)).2 = submissions w.
Proof.
  intros Hother. split; [by apply deliver_keeps_pending |].
  destruct e as [q s | op |]; simpl.
  - case_decide as Heq; [| done]. subst q. exfalso. apply Hother. by exists s.
  - apply apply_op_submissions.
  - apply close_submissions.
Qed.

Lemma event_loop_suspended (es : list Event) (p : Promise) (k : value → M Task) (w : World) :
  Forall (λ e, ¬ settles p e) es →
  (event_loop es (Pending p k, w)).1 = Pending p k
  ∧ submissions (event_loop es (Pending p k, w)).2 = submissions w.
Proof.
  revert w. induction es as [| e es IH]; intros w Hes; [done |].
  apply Forall_cons in Hes as [He Hes].
  destruct (suspended_until_settled e p k w He) as [Htask Hsub].
  unfold event_loop. cbn [foldl].
  destruct (deliver e (Pending p k, w)) as [task w1]. simpl in Htask, Hsub. subst task.
  destruct (IH w1 Hes) as [Htask' Hsub'].
  split; [done |]. by rewrite <- Hsub.
Qed.

Lemma runCommands_reuses (commands : list string) (t : ref) (w : World) :
  truthy (runInActive w) = true →
  Terminal.getActiveTerminal w = Ok (Some t) w →
  async (Terminal.runCommands commands) w = (waiting t commands, w).
Proof.
  intros Hpolicy Hactive.
  unfold async, Terminal.runCommands, mbind, M_bind, config_get, get.
  fold (runInActive w). rewrite Hpolicy, Hactive. reflexivity.
Qed.

Lemma runCommands_opens (commands : list string) (options : Options) (w : World) :
  Terminal.addDefaultPosition ∅ w = Ok options w →
  truthy (runInActive w) = false ∨ Terminal.getActiveTerminal w = Ok None w →
  async (Terminal.runCommands commands) w =
    (opening (length (calls w)) commands,
     with_calls (calls w ++ [CallWorkspaceOpen
                   (Terminal.TERMINAL_BASE_URI +:+ uuid_source w (uuid_count w) +:+ "/")
                   options])
       (with_uuid_count (S (uuid_count w)) w)).
Proof.
  intros Hoptions Hcase.
  assert ((if truthy (runInActive w) then Terminal.getActiveTerminal else mret None) w
          = Ok None w) as Htarget.
  { destruct Hcase as [-> | Hnone]; [done |]. by destruct (truthy (runInActive w)). }
  unfold async, Terminal.runCommands, mbind, M_bind, config_get, get.
  fold (runInActive w). rewrite Htarget. simpl. rewrite Hoptions. reflexivity.
Qed.

Lemma opened_then_waits (n : nat) (t : ref) (commands : list string) (w : World) :
  settle (OpenPromise n) (Fulfil (VTerminal t)) (opening n commands, w) =
    (waiting t commands, w).
Proof. unfold opening. simpl. by rewrite decide_True. Qed.

Lemma ready_then_submits (t : ref) (commands : list string) (v : value) (w : World) :
  settle (InitializedPromise t) (Fulfil v) (waiting t commands, w) =
    (Fulfilled, with_calls (calls w ++ (CallRunCommand t <$> commands)) w).
Proof.
  unfold waiting. simpl. rewrite decide_True by done.
  unfold async. by rewrite submit_all_spec.
Qed.

Lemma addDefaultPosition_default (w : World) :
  Terminal.addDefaultPosition ∅ w = Ok (default_placement w) w.
Proof.
  unfold Terminal.addDefaultPosition, mbind, M_bind, config_get, getActivePane, get.
  unfold default_placement. fold (defaultOpenPosition w).
  destruct (defaultOpenPosition w) as [| | b | position | p | t | o];
    repeat case_decide; simplify_eq; try reflexivity;
    try (by cbn; match goal with |- context [activePane ?x] => destruct (activePane x) end).
  unfold designated, split_of. repeat case_decide; by simplify_eq.
Qed.

(** C4: [runCommands] takes the active Session of the registry when
    [terminal.runInActive] is on and there is one.  Otherwise, the setting
    being off or no Session being active, it asks the workspace to open a
    generated address with the placement that the configuration asks for,
    and goes on with the Session it is handed.  Either way it then waits
    for the readiness of that Session: whatever else happens meanwhile, it
    stays suspended and submits nothing.  Once the Session is ready it
    submits the commands of the list to that Session, each one once and in
    the order of the list. *)
Theorem runCommands_submits_in_order (commands : list string) (w : World) :
  (∀ t, truthy (runInActive w) = true →
        at_most_one_active w → registered t w → Model.isActiveTerminal t w = true →
        async (Terminal.runCommands commands) w = (waiting t commands, w))
  ∧ (truthy (runInActive w) = false
     ∨ (∀ t, registered t w → Model.isActiveTerminal t w = false) →
     async (Terminal.runCommands commands) w =
       (opening (length (calls w)) commands,
        requested (next_address w) (default_placement w) w))
  ∧ (∀ n t w1, settle (OpenPromise n) (Fulfil (VTerminal t)) (opening n commands, w1) =
                 (waiting t commands, w1))
  ∧ (∀ t es w1, Forall (λ e, ¬ settles (InitializedPromise t) e) es →
       (event_loop es (waiting t commands, w1)).1 = waiting t commands
       ∧ submissions (event_loop es (waiting t commands, w1)).2 = submissions w1)
  ∧ (∀ t v w1,
       settle (InitializedPromise t) (Fulfil v) (waiting t commands, w1) =
         (Fulfilled, with_calls (calls w1 ++ (CallRunCommand t <$> commands)) w1)
       ∧ submissions (with_calls (calls w1 ++ (CallRunCommand t <$> commands)) w1) =
           submissions w1 ++ ((λ command, (t, command)) <$> commands)).
Proof.
  split_and!.
  - intros t Hpolicy Hinv Hreg Hactive. apply runCommands_reuses; [done |].
    by apply getActiveTerminal_some.
  - intros Hcase.
    apply (runCommands_opens commands (default_placement w) w);
      [apply addDefaultPosition_default |].
    destruct Hcase as [Hoff | Hnone]; [by left | right].
    by apply getActiveTerminal_none.
  - intros n t w1. apply opened_then_waits.
  - intros t es w1. apply event_loop_suspended.
  - intros t v w1. split; [apply ready_then_submits | apply submissions_submit].
Qed.

Lemma runCommands_submits_in_order_witness :
  async (Terminal.runCommands ["echo hi"; "ls"]) reuse_world
    = (waiting 0 ["echo hi"; "ls"], reuse_world)
  ∧ async (Terminal.runCommands ["echo hi"; "ls"]) (placed_world "Split Up" (Some 4))
    = (opening 0 ["echo hi"; "ls"],
       requested "terminal://0/" {[ "split" := VString "up" ]}
         (placed_world "Split Up" (Some 4)))
  ∧ (event_loop [Does (Exits 0); CloseCommand] (waiting 0 ["echo hi"; "ls"], reuse_world)).1
      = waiting 0 ["echo hi"; "ls"]
  ∧ calls (settle (InitializedPromise 0) (Fulfil VUndefined)
             (waiting 0 ["echo hi"; "ls"], reuse_world)).2
      = [CallRunCommand 0 "echo hi"; CallRunCommand 0 "ls"].
Proof.
  destruct (runCommands_submits_in_order ["echo hi"; "ls"] reuse_world)
    as (Hreuse & _ & _ & Hwaits & Hsubmits).
  destruct (runCommands_submits_in_order ["echo hi"; "ls"] (placed_world "Split Up" (Some 4)))
    as (_ & Hopens & _).
  split_and!.
  - apply Hreuse; [reflexivity | | | reflexivity].
    + intros t1 t2 Hreg1 Hreg2 _ _. unfold registered in Hreg1, Hreg2. simpl in Hreg1, Hreg2.
      apply list_elem_of_singleton in Hreg1, Hreg2. congruence.
    + unfold registered. simpl. by apply list_elem_of_singleton.
  - apply Hopens. by left.
  - apply Hwaits. repeat constructor; intros [s Hs]; discriminate.
  - by rewrite (proj1 (Hsubmits 0 VUndefined reuse_world)).
Defined.

(** ** Closing a Session that a call waits for *)

(** C5, as the code has it: a call suspended on the readiness of a Session
    is not told when that Session is closed.  It stays suspended, and
    submits nothing, for as long as the Session's [initializedPromise] is
    not settled, whatever else happens: the Session exits, the command
    [terminal:close] runs.  When that promise is fulfilled, all commands
    are submitted to the Session, exited or not; when it is rejected, the
    call is rejected and nothing is submitted. *)
Theorem closing_does_not_cancel (t : ref) (commands : list string) (w : World) :
  (∀ es, Forall (λ e, ¬ settles (InitializedPromise t) e) es →
     (event_loop es (waiting t commands, w)).1 = waiting t commands
     ∧ submissions (event_loop es (waiting t commands, w)).2 = submissions w)
  ∧ (deliver (Does (Exits t)) (waiting t commands, w)).1 = waiting t commands
  ∧ (deliver CloseCommand (waiting t commands, w)).1 = waiting t commands
  ∧ (∀ v w1, settle (InitializedPromise t) (Fulfil v) (waiting t commands, w1) =
       (Fulfilled, with_calls (calls w1 ++ (CallRunCommand t <$> commands)) w1))
  ∧ (∀ e w1, settle (InitializedPromise t) (Reject e) (waiting t commands, w1) =
       (Rejected e, w1)).
Proof.
  split_and!.
  - intros es. apply event_loop_suspended.
  - done.
  - done.
  - intros v w1. apply ready_then_submits.
  - intros e w1. unfold waiting. simpl. by rewrite decide_True.
Qed.

Lemma closing_does_not_cancel_witness :
  (event_loop [Does (Exits 0); CloseCommand] (waiting 0 ["echo hi"], echo_opened.2)).1
    = waiting 0 ["echo hi"]
  ∧ submissions (event_loop [Does (Exits 0); CloseCommand] (waiting 0 ["echo hi"], echo_opened.2)).2
    = submissions echo_opened.2.
Proof.
  apply (closing_does_not_cancel 0 ["echo hi"] echo_opened.2).
  repeat constructor; intros [s Hs]; discriminate.
Defined.

(** C5, as the claim has it: the only Session is closed while
    [runCommands(["echo hi"])] waits for it.  The call is still waiting
    afterwards; and when the readiness signal arrives it submits the
    command to the Session that has exited and left the registry. *)
Lemma closed_session_receives_commands :
  waits_for echo_closed.1 = Some (InitializedPromise 0)
  ∧ JSSet.values (terminalsSet echo_closed.2) = []
  ∧ processState <$> heap echo_closed.2 !! 0 = Some Exited
  ∧ submissions echo_closed.2 = []
  ∧ (settle (InitializedPromise 0) (Fulfil VUndefined) echo_closed).1 = Fulfilled
  ∧ calls (settle (InitializedPromise 0) (Fulfil VUndefined) echo_closed).2 =
      [CallWorkspaceOpen "terminal://0/" ∅; CallExit 0; CallRunCommand 0 "echo hi"].
Proof. vm_compute. done. Qed.


(** * Further properties of terminal.js *)

(** ** Addresses *)

Lemma generate_many_NoDup_witness : NoDup (generate_many 3 initial_world).1.
Proof.
  apply (generate_many_NoDup 3 initial_world).
  intros i j Hi Hj.
  destruct i as [| [| [| i]]]; [| | | lia];
    (destruct j as [| [| [| j]]]; [| | | lia]);
    vm_compute; intros Heq; first [reflexivity | discriminate Heq].
Defined.

Lemma opener_accepts (u : string) (w : World) :
  String.prefix Terminal.TERMINAL_BASE_URI u = true →
  ∃ t w', Terminal.opener u w = Ok (Some t) w'
    ∧ heap w !! t = None
    ∧ uri <$> heap w' !! t = Some u
    ∧ t ∈ JSSet.values (terminalsSet w').
Proof.
  intros Hpre. unfold Terminal.opener. rewrite Hpre.
  destruct (new_spec u w) as (w' & Hnew & Hfresh & Huri & Hin & _).
  exists (fresh (dom (heap w))), w'. unfold mbind, M_bind. rewrite Hnew. done.
Qed.

(** X1: whatever token [uuidv4()] hands out, the address that
    [generateNewUri] returns is one the opener recognizes: in every state
    the opener answers it with a new Session bound to that address. *)
Theorem generated_address_is_opened (w : World) :
  ∃ u w1, Terminal.generateNewUri w = Ok u w1
    ∧ ∀ w2, ∃ t w3, Terminal.opener u w2 = Ok (Some t) w3
        ∧ heap w2 !! t = None
        ∧ uri <$> heap w3 !! t = Some u
        ∧ t ∈ JSSet.values (terminalsSet w3).
Proof.
  eexists _, _. split; [apply generateNewUri_shape |].
  intros w2. apply opener_accepts.
  apply prefix_iff_append. by eexists.
Qed.

(** ** Default placement, once more *)

Lemma set_pane_unless_given_idem (p : option pane) (options : Options) :
  Terminal.set_pane_unless_given p (Terminal.set_pane_unless_given p options)
  = Terminal.set_pane_unless_given p options.
Proof.
  unfold Terminal.set_pane_unless_given, has_key. destruct p as [p' |]; [| done].
  destruct (bool_decide (is_Some (options !! "pane"))) eqn:Hgiven; simpl.
  - by rewrite Hgiven.
  - rewrite bool_decide_eq_true_2; [done |]. rewrite lookup_insert_eq. by eexists.
Qed.

Lemma set_split_unless_given_idem (dir : string) (options : Options) :
  Terminal.set_split_unless_given dir (Terminal.set_split_unless_given dir options)
  = Terminal.set_split_unless_given dir options.
Proof.
  unfold Terminal.set_split_unless_given, has_key.
  destruct (bool_decide (is_Some (options !! "split"))) eqn:Hgiven; simpl.
  - by rewrite Hgiven.
  - rewrite bool_decide_eq_true_2; [done |]. rewrite lookup_insert_eq. by eexists.
Qed.

(** X3: [addDefaultPosition] is idempotent: applied to its own result, in
    the same state, it returns that result unchanged. *)
Theorem addDefaultPosition_idempotent (options : Options) (w : World) :
  ∃ options', Terminal.addDefaultPosition options w = Ok options' w
    ∧ Terminal.addDefaultPosition options' w = Ok options' w.
Proof.
  unfold Terminal.addDefaultPosition, mbind, M_bind, config_get, getActivePane, get.
  repeat case_decide;
    (eexists; split; [reflexivity |]; unfold mret, M_ret;
     by rewrite ?set_pane_unless_given_idem, ?set_split_unless_given_idem).
Qed.

(** X4: [addDefaultPosition] changes the options by at most one key: it
    returns them as they are, or with the one key [pane] added, or with
    the one key [split] added, set to up, down, left or right; the key it
    adds was not there before. *)
Theorem addDefaultPosition_adds_one_key (options : Options) (w : World) :
  ∃ options', Terminal.addDefaultPosition options w = Ok options' w
    ∧ (options' = options
       ∨ (options !! "pane" = None
          ∧ ∃ p, options' = <["pane" := VPane p]> options)
       ∨ (options !! "split" = None
          ∧ ∃ dir, dir ∈ split_directions
             ∧ options' = <["split" := VString dir]> options)).
Proof.
  assert (∀ p, Terminal.set_pane_unless_given p options = options
      ∨ (options !! "pane" = None
         ∧ ∃ p', Terminal.set_pane_unless_given p options = <["pane" := VPane p']> options))
    as Hpane.
  { intros [p' |]; [| by left]. unfold Terminal.set_pane_unless_given, has_key.
    case_bool_decide as Hgiven; simpl; [by left |].
    right. split; [by apply eq_None_not_Some | by exists p']. }
  assert (∀ dir, Terminal.set_split_unless_given dir options = options
      ∨ (options !! "split" = None
         ∧ Terminal.set_split_unless_given dir options = <["split" := VString dir]> options))
    as Hsplit.
  { intros dir. unfold Terminal.set_split_unless_given, has_key.
    case_bool_decide as Hgiven; simpl; [by left |].
    right. split; [by apply eq_None_not_Some | done]. }
  unfold Terminal.addDefaultPosition, mbind, M_bind, config_get, getActivePane, get.
  unfold split_directions.
  repeat case_decide;
    (eexists; split; [reflexivity |]);
    first
      [ by left
      | match goal with
        | |- context [Terminal.set_pane_unless_given ?p _] =>
            destruct (Hpane p) as [-> | [Hnone [p' ->]]];
            [by left | right; left; split; [done | by exists p']]
        | |- context [Terminal.set_split_unless_given ?dir _] =>
            destruct (Hsplit dir) as [-> | [Hnone ->]];
            [by left | right; right; split; [done | exists dir; split; [set_solver | done]]]
        end ].
Qed.

(** ** Opening a terminal *)

Lemma open_generated (options : Options) (w : World) :
  (Terminal.generateNewUri ≫= λ u, Terminal.open u options) w =
    Ok (OpenPromise (length (calls w))) (requested (next_address w) options w).
Proof. reflexivity. Qed.

Lemma next_address_recognized (w : World) :
  String.prefix Terminal.TERMINAL_BASE_URI (next_address w) = true.
Proof. apply prefix_iff_append. by eexists. Qed.

(** X5: [openInCenterOrDock] makes one request, for a generated address.
    When the container has an active pane, the request carries that pane
    under the key [pane], whatever the caller had put there, and leaves
    the other keys alone; when it has none, the options go out as they
    came in. *)
Theorem openInCenterOrDock_overrides_pane (c : Container) (options : Options) (w : World) :
  ∃ options',
    Terminal.openInCenterOrDock c options w =
      Ok (OpenPromise (length (calls w))) (requested (next_address w) options' w)
    ∧ (∀ p, activePane (workspace w c) = Some p → options' !! "pane" = Some (VPane p))
    ∧ (∀ k, k ≠ "pane" → options' !! k = options !! k)
    ∧ (activePane (workspace w c) = None → options' = options).
Proof.
  unfold Terminal.openInCenterOrDock, mbind, M_bind, getActivePane, get.
  destruct (activePane (workspace w c)) as [p |] eqn:Hpane.
  - exists (<["pane" := VPane p]> options). split_and!; [reflexivity | | | done].
    + intros p' [= <-]. apply lookup_insert_eq.
    + intros k Hk. by apply lookup_insert_ne.
  - exists options. split_and!; [reflexivity | done | done | done].
Qed.

Lemma openInCenterOrDock_overrides_pane_witness :
  ∃ options',
    Terminal.openInCenterOrDock LeftDock {[ "pane" := VPane 7 ]} (placed_world "Center" (Some 4)) =
      Ok (OpenPromise 0)
         (requested "terminal://0/" options' (placed_world "Center" (Some 4)))
    ∧ options' !! "pane" = Some (VPane 4).
Proof.
  destruct (openInCenterOrDock_overrides_pane LeftDock {[ "pane" := VPane 7 ]}
              (placed_world "Center" (Some 4))) as (options' & Hrun & Hpane & _).
  exists options'. split; [exact Hrun |]. apply Hpane. reflexivity.
Defined.

(** X6: each of the nine commands that open a terminal makes exactly one
    request to the workspace, for the next generated address, which the
    opener recognizes; it draws one token and changes nothing else: no
    Session is created or removed by the command itself.  It never
    throws. *)
Theorem open_command_requests_once (c : Commands.Command) (w : World) :
  ∃ options,
    Commands.run c w =
      Ok (OpenPromise (length (calls w))) (requested (next_address w) options w)
    ∧ String.prefix Terminal.TERMINAL_BASE_URI (next_address w) = true.
Proof.
  destruct c; simpl;
    try (eexists; split; [apply open_generated | apply next_address_recognized]);
    try (match goal with |- context [Terminal.openInCenterOrDock ?c ?o] =>
           unfold Terminal.openInCenterOrDock, mbind, M_bind, getActivePane, get;
           destruct (activePane (workspace w c)) end;
         eexists; split; [reflexivity | apply next_address_recognized]).
  destruct (addDefaultPosition_pure ∅ (with_uuid_count (S (uuid_count w)) w)) as [options Hoptions].
  exists options. split; [| apply next_address_recognized].
  unfold mbind, M_bind. rewrite generateNewUri_shape, Hoptions. reflexivity.
Qed.

Lemma addDefaultPosition_uuid_count (options : Options) (n : nat) (w : World) :
  Terminal.addDefaultPosition options (with_uuid_count n w) =
    match Terminal.addDefaultPosition options w with
    | Ok options' _ => Ok options' (with_uuid_count n w)
    | Throw e _ => Throw e (with_uuid_count n w)
    end.
Proof.
  unfold Terminal.addDefaultPosition, mbind, M_bind, config_get, getActivePane, get.
  simpl. repeat case_decide; reflexivity.
Qed.

(** X7: the command [terminal:open] generates the address before it looks
    up the placement, [openTerminal] (and with it [open()] of the
    service) the other way round; in every state both make the same
    request and leave the same state. *)
Theorem open_command_is_service_open (w : World) :
  Commands.run Commands.CmdOpen w = Service.open w.
Proof.
  unfold Service.open, Terminal.openTerminal. simpl.
  unfold mbind, M_bind. rewrite generateNewUri_shape.
  rewrite addDefaultPosition_uuid_count.
  destruct (addDefaultPosition_pure ∅ w) as [options Hoptions].
  rewrite Hoptions. reflexivity.
Qed.

(** ** Commands on the active Session, when there is one *)

Lemma find_first {A} (f : A → bool) (l : list A) :
  match List.find f l with
  | Some x => ∃ l1 l2, l = l1 ++ x :: l2 ∧ f x = true ∧ ∀ y, y ∈ l1 → f y = false
  | None => ∀ y, y ∈ l → f y = false
  end.
Proof.
  induction l as [| a l IH]; simpl.
  - intros y Hy. by apply elem_of_nil in Hy.
  - destruct (f a) eqn:Ha.
    + exists [], l. split_and!; [done | done |]. intros y Hy. by apply elem_of_nil in Hy.
    + destruct (List.find f l) as [x |].
      * destruct IH as (l1 & l2 & -> & Hx & Hbefore).
        exists (a :: l1), l2. split_and!; [done | done |].
        intros y [-> | Hy]%elem_of_cons; [done | by apply Hbefore].
      * intros y [-> | Hy]%elem_of_cons; [done | by apply IH].
Qed.

(** X10: [getActiveTerminal] changes nothing, and without any assumption
    on how many Sessions are flagged it returns the one inserted first
    among the active Sessions of the set: every Session inserted before
    it is inactive.  It returns nothing exactly when no Session of the
    set is active. *)
Theorem getActiveTerminal_first_active (w : World) :
  ∃ r, Terminal.getActiveTerminal w = Ok r w
    ∧ match r with
      | Some t => ∃ before after,
          JSSet.values (terminalsSet w) = before ++ t :: after
          ∧ Model.isActiveTerminal t w = true
          ∧ ∀ t', t' ∈ before → Model.isActiveTerminal t' w = false
      | None => ∀ t, registered t w → Model.isActiveTerminal t w = false
      end.
Proof.
  eexists. split; [apply getActiveTerminal_find |].
  apply (find_first (λ t, Model.isActiveTerminal t w)).
Qed.

Lemma getActiveTerminal_inv (w : World) (r : option ref) :
  Terminal.getActiveTerminal w = Ok r w →
  List.find (λ t, Model.isActiveTerminal t w) (JSSet.values (terminalsSet w)) = r.
Proof. rewrite getActiveTerminal_find. by intros [= ->]. Qed.

Lemma copy_active (t : ref) (w : World) :
  Terminal.getActiveTerminal w = Ok (Some t) w →
  Terminal.copy w =
    Ok () (with_clipboard (selected t w)
            (with_calls (calls w ++ [CallCopyFromTerminal t; CallClipboardWrite (selected t w)]) w)).
Proof.
  intros Hactive. unfold Terminal.copy, mbind, M_bind. rewrite Hactive. simpl.
  unfold clipboard_write, record, modify, mbind, M_bind, selected,
    with_clipboard, with_calls. simpl. by rewrite <- app_assoc.
Qed.

Lemma paste_active (t : ref) (w : World) :
  Terminal.getActiveTerminal w = Ok (Some t) w →
  Terminal.paste w =
    Ok () (with_calls (calls w ++ [CallClipboardRead; CallPasteToTerminal t (clipboard w)]) w).
Proof.
  intros Hactive. unfold Terminal.paste, mbind, M_bind. rewrite Hactive. simpl.
  unfold clipboard_read, Model.pasteToTerminal, record, modify, get, mbind, M_bind,
    with_calls. simpl. by rewrite <- app_assoc.
Qed.

(** X8: when Session [t] is the active one, none of the four commands
    throws and each one addresses [t] and no other Session: [close] calls
    its [exit] and nothing else, after which [t] has left the set and
    every other Session is still in it; [restart] calls its
    [restartPtyProcess] and changes nothing else; [copy] asks it for the
    selected text and writes that text to the clipboard; [paste] reads
    the clipboard and hands the text to it. *)
Theorem active_session_commands (t : ref) (w : World) :
  Terminal.getActiveTerminal w = Ok (Some t) w →
  (∃ w', Terminal.close w = Ok () w'
     ∧ calls w' = calls w ++ [CallExit t]
     ∧ ∀ t', registered t' w' ↔ t' ≠ t ∧ registered t' w)
  ∧ Terminal.restart w = Ok () (with_calls (calls w ++ [CallRestartPtyProcess t]) w)
  ∧ Terminal.copy w =
      Ok () (with_clipboard (selected t w)
              (with_calls (calls w ++ [CallCopyFromTerminal t;
                                       CallClipboardWrite (selected t w)]) w))
  ∧ Terminal.paste w =
      Ok () (with_calls (calls w ++ [CallClipboardRead;
                                     CallPasteToTerminal t (clipboard w)]) w).
Proof.
  intros Hactive. split_and!.
  - destruct (exit_spec t w) as (w' & Hexit & Hset & Hcalls).
    exists w'. split_and!; [| done |].
    + unfold Terminal.close, mbind, M_bind. by rewrite Hactive.
    + intros t'. unfold registered. rewrite Hset. apply elem_of_values_delete.
  - unfold Terminal.restart, mbind, M_bind. by rewrite Hactive.
  - by apply copy_active.
  - by apply paste_active.
Qed.

Lemma active_session_commands_witness :
  Terminal.restart busy_world
    = Ok () (with_calls (calls busy_world ++ [CallRestartPtyProcess 0]) busy_world)
  ∧ Terminal.paste busy_world
    = Ok () (with_calls (calls busy_world ++ [CallClipboardRead; CallPasteToTerminal 0 ""])
               busy_world).
Proof.
  destruct (active_session_commands 0 busy_world) as (_ & Hrestart & _ & Hpaste);
    [reflexivity |].
  split; [exact Hrestart | exact Hpaste].
Defined.

(** X9: [copy] followed by [paste], with Session [t] active, hands to [t]
    the very text that was selected in it, and leaves that text on the
    clipboard: the four calls are made in this order and no others. *)
Theorem copy_then_paste (t : ref) (w : World) :
  Terminal.getActiveTerminal w = Ok (Some t) w →
  ∃ w', (Terminal.copy ≫= λ _, Terminal.paste) w = Ok () w'
    ∧ calls w' = calls w ++ [CallCopyFromTerminal t; CallClipboardWrite (selected t w);
                             CallClipboardRead; CallPasteToTerminal t (selected t w)]
    ∧ clipboard w' = selected t w
    ∧ terminalsSet w' = terminalsSet w
    ∧ heap w' = heap w.
Proof.
  intros Hactive. unfold mbind at 1, M_bind at 1. rewrite (copy_active t w Hactive).
  erewrite paste_active.
  - eexists. split; [reflexivity |]. simpl. split_and!; try done.
    by rewrite <- app_assoc.
  - rewrite getActiveTerminal_find. f_equal.
    apply (getActiveTerminal_inv w (Some t) Hactive).
Qed.

Lemma copy_then_paste_witness :
  ∃ w', (Terminal.copy ≫= λ _, Terminal.paste) busy_world = Ok () w'
    ∧ calls w' = [CallCopyFromTerminal 0; CallClipboardWrite "ls";
                  CallClipboardRead; CallPasteToTerminal 0 "ls"].
Proof.
  destruct (copy_then_paste 0 busy_world) as (w' & Hrun & Hcalls & _); [reflexivity |].
  exists w'. split; [exact Hrun | exact Hcalls].
Defined.

(** ** Exit of all Sessions, once more *)

Lemma exit_loop_trace (n i : nat) (w : World) :
  length (terminalsSet w) - i < n →
  NoDup (JSSet.values (drop i (terminalsSet w))) →
  ∃ w', Terminal.set_for_of n i Model.exit w = Some (Ok () w')
    ∧ calls w' = calls w ++ (CallExit <$> JSSet.values (drop i (terminalsSet w))).
Proof.
  revert i w. induction n as [| n IH]; intros i w Hfuel Hnodup; [lia |].
  cbn [Terminal.set_for_of].
  destruct (terminalsSet w !! i) as [[t |] |] eqn:Hi.
  - rewrite (drop_S _ _ _ Hi) in Hnodup |- *.
    change (JSSet.values (Some t :: drop (S i) (terminalsSet w)))
      with (t :: JSSet.values (drop (S i) (terminalsSet w))) in Hnodup |- *.
    apply NoDup_cons in Hnodup as [Hfresh Hnodup].
    destruct (exit_spec t w) as (w1 & Hexit & Hset & Hcalls). rewrite Hexit.
    assert (drop (S i) (terminalsSet w1) = drop (S i) (terminalsSet w)) as Hrest.
    { rewrite Hset. unfold JSSet.delete. rewrite <- fmap_drop.
      apply delete_absent. by rewrite <- elem_of_values. }
    destruct (IH (S i) w1) as (w' & Hrun & Htrace).
    { rewrite Hset. unfold JSSet.delete. rewrite length_fmap.
      apply lookup_lt_Some in Hi. lia. }
    { by rewrite Hrest. }
    exists w'. split; [done |].
    rewrite Htrace, Hrest, Hcalls, <- app_assoc. done.
  - rewrite (drop_S _ _ _ Hi) in Hnodup |- *.
    change (JSSet.values (None :: drop (S i) (terminalsSet w)))
      with (JSSet.values (drop (S i) (terminalsSet w))) in Hnodup |- *.
    apply IH; [| done]. apply lookup_lt_Some in Hi. lia.
  - apply lookup_ge_None in Hi. rewrite drop_ge by done.
    exists w. split; [done |]. simpl. by rewrite app_nil_r.
Qed.

(** X11: on a set that holds no Session twice, as every [Set] does,
    [exitAllTerminals] calls [exit] once on each Session, in the order in
    which they were inserted, and makes no other call. *)
Theorem exitAllTerminals_in_insertion_order (w : World) (extra : nat) :
  NoDup (JSSet.values (terminalsSet w)) →
  ∃ w', Terminal.exitAllTerminals (S (length (terminalsSet w)) + extra) w = Some (Ok () w')
    ∧ calls w' = calls w ++ (CallExit <$> JSSet.values (terminalsSet w)).
Proof.
  intros Hnodup.
  apply (exit_loop_trace (S (length (terminalsSet w)) + extra) 0 w); [lia | done].
Qed.

Lemma exitAllTerminals_in_insertion_order_witness :
  ∃ w', Terminal.exitAllTerminals 3 two_sessions = Some (Ok () w')
    ∧ calls w' = [CallExit 0; CallExit 1].
Proof.
  apply (exitAllTerminals_in_insertion_order two_sessions 0).
  apply NoDup_cons. split; [| apply NoDup_singleton].
  intros Hin%list_elem_of_singleton. discriminate.
Defined.

(** X12: once [exitAllTerminals] has run, running it again does nothing,
    with any amount of fuel that covers the entries of the set; no Session
    is active any more, and [close], [restart], [copy] and [paste] do
    nothing either. *)
Theorem exitAllTerminals_then_nothing (w : World) (extra : nat) :
  ∃ w', Terminal.exitAllTerminals (S (length (terminalsSet w)) + extra) w = Some (Ok () w')
    ∧ (∀ n, length (terminalsSet w') < n →
         Terminal.exitAllTerminals n w' = Some (Ok () w'))
    ∧ Terminal.getActiveTerminal w' = Ok None w'
    ∧ Terminal.close w' = Ok () w'
    ∧ Terminal.restart w' = Ok () w'
    ∧ Terminal.copy w' = Ok () w'
    ∧ Terminal.paste w' = Ok () w'.
Proof.
  destruct (exit_loop (S (length (terminalsSet w)) + extra) 0 w)
    as (w' & Hrun & Hempty & _); [lia | lia |].
  assert (Terminal.getActiveTerminal w' = Ok None w') as Hnone.
  { rewrite getActiveTerminal_find. by rewrite Hempty. }
  exists w'. split_and!; [done | | done | | | |].
  - intros n Hn. destruct (exit_loop n 0 w') as (w'' & Hrun' & _ & _ & _ & Hsame); [lia | lia |].
    unfold Terminal.exitAllTerminals, Terminal.exitAllTerminals_with.
    by rewrite Hrun', (Hsame Hempty).
  - unfold Terminal.close, mbind, M_bind. by rewrite Hnone.
  - unfold Terminal.restart, mbind, M_bind. by rewrite Hnone.
  - unfold Terminal.copy, mbind, M_bind. by rewrite Hnone.
  - unfold Terminal.paste, mbind, M_bind. by rewrite Hnone.
Qed.

Lemma exitAllTerminals_then_nothing_witness :
  ∃ w', Terminal.exitAllTerminals 3 two_sessions = Some (Ok () w')
    ∧ Terminal.exitAllTerminals 3 w' = Some (Ok () w')
    ∧ Terminal.close w' = Ok () w'.
Proof.
  destruct (exitAllTerminals_then_nothing two_sessions 0)
    as (w' & Hrun & Hagain & _ & Hclose & _).
  exists w'. split_and!; [exact Hrun | | exact Hclose].
  apply Hagain.
  assert (length (terminalsSet w') = 2) as ->; [| lia].
  vm_compute in Hrun. injection Hrun as <-. reflexivity.
Defined.

(** ** Failure of a call of [runCommands] *)

(** X13: a call of [runCommands] that waits for the workspace to open a
    terminal fails without going any further when the request is
    rejected, and with a [TypeError] when the workspace answers with
    [undefined] or [null] in place of an item: the call is rejected, no
    wait for readiness begins, nothing is submitted, the state is as it
    was. *)
Theorem runCommands_fails_without_submitting
    (n : nat) (commands : list string) (e : Error) (w : World) :
  settle (OpenPromise n) (Reject e) (opening n commands, w) = (Rejected e, w)
  ∧ settle (OpenPromise n) (Fulfil VUndefined) (opening n commands, w)
      = (Rejected TypeError, w)
  ∧ settle (OpenPromise n) (Fulfil VNull) (opening n commands, w)
      = (Rejected TypeError, w).
Proof.
  unfold opening, settle. rewrite !decide_True by done.
  split_and!; reflexivity.
Qed.

Lemma runCommands_fails_without_submitting_witness :
  settle (OpenPromise 0) (Reject TypeError) echo_started = (Rejected TypeError, echo_started.2)
  ∧ settle (OpenPromise 0) (Fulfil VUndefined) echo_started = (Rejected TypeError, echo_started.2)
  ∧ settle (OpenPromise 0) (Fulfil VNull) echo_started = (Rejected TypeError, echo_started.2).
Proof.
  exact (runCommands_fails_without_submitting 0 ["echo hi"] TypeError echo_started.2).
Defined.

(** ** The callbacks of the constructor *)

Lemma dom_foldr_mark (target : option ref) (l : list ref) (h : gmap ref TerminalModel) :
  dom (foldr (Model.mark target) h l) = dom h.
Proof.
  induction l as [| t l IH]; [done |]. cbn [foldr]. unfold Model.mark at 1.
  by rewrite dom_alter_L.
Qed.

Lemma recalculateActive_frame (w : World) :
  ∃ w', Model.recalculateActive w = Ok () w'
    ∧ terminalsSet w' = terminalsSet w
    ∧ dom (heap w') = dom (heap w)
    ∧ config w' = config w
    ∧ workspace w' = workspace w
    ∧ clipboard w' = clipboard w
    ∧ calls w' = calls w.
Proof.
  eexists. split; [reflexivity |]. simpl. split_and!; try done.
  apply dom_foldr_mark.
Qed.

Lemma on_signal_frame (s : Terminal.Signal) (w : World) :
  ∃ w', Terminal.on_signal s w = Ok () w'
    ∧ terminalsSet w' = terminalsSet w
    ∧ dom (heap w') = dom (heap w)
    ∧ config w' = config w
    ∧ workspace w' = workspace w
    ∧ clipboard w' = clipboard w
    ∧ calls w' = calls w ++ option_list (reported_call s w).
Proof.
  assert (∀ w1 l, terminalsSet w1 = terminalsSet w → dom (heap w1) = dom (heap w) →
            config w1 = config w → workspace w1 = workspace w →
            clipboard w1 = clipboard w → calls w1 = calls w ++ l →
            ∃ w', Model.recalculateActive w1 = Ok () w'
              ∧ terminalsSet w' = terminalsSet w
              ∧ dom (heap w') = dom (heap w)
              ∧ config w' = config w
              ∧ workspace w' = workspace w
              ∧ clipboard w' = clipboard w
              ∧ calls w' = calls w ++ l) as Hthen.
  { intros w1 l Hset Hdom Hconfig Hws Hclip Hcalls.
    destruct (recalculateActive_frame w1) as (w' & Hrun & ? & ? & ? & ? & ? & ?).
    exists w'. split_and!; congruence. }
  destruct s as [p | p [t | o] | [[t | o] |] | dock [|]]; simpl.
  - apply Hthen; try done. by rewrite app_nil_r.
  - unfold mbind, M_bind. simpl. apply Hthen; try done. simpl. apply dom_alter_L.
  - unfold mbind, M_bind. simpl. apply Hthen; try done. by rewrite app_nil_r.
  - unfold mbind, M_bind. simpl. by apply Hthen.
  - unfold mbind, M_bind. simpl. apply Hthen; try done. by rewrite app_nil_r.
  - unfold mbind, M_bind. simpl. apply Hthen; try done. by rewrite app_nil_r.
  - unfold mbind, M_bind, getActivePaneItem, get.
    destruct (activePaneItem (workspace w dock)) as [[t | o] |]; simpl;
      apply Hthen; try done; by rewrite app_nil_r.
  - unfold mbind, M_bind. simpl. apply Hthen; try done. by rewrite app_nil_r.
Qed.

(** X14: no callback of the constructor throws, and none adds a Session to
    the set or takes one out, creates or discards a Session object, or
    touches the clipboard.  The only call it makes is the one for the
    terminal item it was told about: [setNewPane] for an item observed in
    a pane, [focusOnTerminal] for the active pane item and for the active
    item of a dock that became visible.  For an item that is no terminal,
    and when a dock is hidden, it makes no call at all. *)
Theorem observer_callback_frame (s : Terminal.Signal) (w : World) :
  ∃ w', Terminal.on_signal s w = Ok () w'
    ∧ terminalsSet w' = terminalsSet w
    ∧ dom (heap w') = dom (heap w)
    ∧ clipboard w' = clipboard w
    ∧ calls w' = calls w ++ option_list (reported_call s w)
    ∧ (∀ dock, s = Terminal.Visible dock false → calls w' = calls w)
    ∧ (∀ p o, s = Terminal.ItemObserved p (OtherItem o) → calls w' = calls w).
Proof.
  destruct (on_signal_frame s w) as (w' & Hrun & Hset & Hdom & _ & _ & Hclip & Hcalls).
  exists w'. split_and!; try done.
  - intros dock ->. rewrite Hcalls. simpl. apply app_nil_r.
  - intros p o ->. rewrite Hcalls. simpl. apply app_nil_r.
Qed.

Lemma observer_callback_frame_witness :
  ∃ w', Terminal.on_signal (Terminal.Visible BottomDock false)
          (world_after two_focused initial_world) = Ok () w'
    ∧ calls w' = calls (world_after two_focused initial_world).
Proof.
  destruct (observer_callback_frame (Terminal.Visible BottomDock false)
              (world_after two_focused initial_world))
    as (w' & Hrun & _ & _ & _ & _ & Hhidden & _).
  exists w'. split; [exact Hrun |]. by apply (Hhidden BottomDock).
Defined.

(** ** Restore and the opener *)

(** X19: with [allowRelaunchingTerminalsOnStartup] on,
    [deserializeTerminalModel] does not look at the address at all.  For
    an address that starts with the base uri it does exactly what the
    opener does; for any other string the opener declines, and the
    restore still creates a Session bound to it. *)
Theorem deserialize_skips_prefix_check (u : string) (w : World) :
  truthy (allowRelaunching w) = true →
  (String.prefix Terminal.TERMINAL_BASE_URI u = true →
     Terminal.deserializeTerminalModel u w = Terminal.opener u w)
  ∧ (String.prefix Terminal.TERMINAL_BASE_URI u = false →
     Terminal.opener u w = Ok None w
     ∧ ∃ t w', Terminal.deserializeTerminalModel u w = Ok (Some t) w'
         ∧ heap w !! t = None
         ∧ uri <$> heap w' !! t = Some u
         ∧ t ∈ JSSet.values (terminalsSet w')).
Proof.
  intros Hallow.
  assert (Terminal.deserializeTerminalModel u w =
          (Model.new u ≫= λ item, mret (Some item)) w) as Hrestore.
  { unfold Terminal.deserializeTerminalModel, mbind, M_bind, config_get, get.
    fold (allowRelaunching w). by rewrite Hallow. }
  split; intros Hpre.
  - rewrite Hrestore. unfold Terminal.opener. by rewrite Hpre.
  - split; [unfold Terminal.opener; by rewrite Hpre |].
    destruct (new_spec u w) as (w' & Hnew & Hfresh & Huri & Hin & _).
    exists (fresh (dom (heap w))), w'. rewrite Hrestore.
    unfold mbind, M_bind. rewrite Hnew. done.
Qed.

Lemma deserialize_skips_prefix_check_witness :
  Terminal.opener "file:///tmp" relaunch_world = Ok None relaunch_world
  ∧ ∃ t w', Terminal.deserializeTerminalModel "file:///tmp" relaunch_world = Ok (Some t) w'
      ∧ heap relaunch_world !! t = None
      ∧ uri <$> heap w' !! t = Some "file:///tmp"
      ∧ t ∈ JSSet.values (terminalsSet w').
Proof.
  apply (deserialize_skips_prefix_check "file:///tmp" relaunch_world); reflexivity.
Defined.

(** ** The one instance of the package *)

Lemma for_of_on_signal_frame (signals : list Terminal.Signal) (w : World) :
  ∃ w', for_of signals Terminal.on_signal w = Ok () w'
    ∧ terminalsSet w' = terminalsSet w
    ∧ dom (heap w') = dom (heap w)
    ∧ config w' = config w.
Proof.
  revert w. induction signals as [| s signals IH]; intros w; [by exists w |].
  destruct (on_signal_frame s w) as (w1 & Hrun & Hset & Hdom & Hconfig & _).
  destruct (IH w1) as (w' & Hrest & Hset' & Hdom' & Hconfig').
  exists w'. cbn [for_of]. unfold mbind, M_bind. rewrite Hrun, Hrest.
  split_and!; congruence.
Qed.

Lemma construct_frame (initial : list Terminal.Signal) (w : World) :
  ∃ w', Package.construct initial w = Ok () w'
    ∧ terminalsSet w' = JSSet.empty
    ∧ dom (heap w') = dom (heap w)
    ∧ config w' = config w.
Proof.
  unfold Package.construct, mbind, M_bind, modify.
  destruct (for_of_on_signal_frame initial (with_terminalsSet JSSet.empty w))
    as (w' & Hrun & Hset & Hdom & Hconfig).
  exists w'. by rewrite Hrun.
Qed.

(** X17: [getInstance] never throws and leaves the package with an
    instance.  When there is one already it changes nothing, whatever
    the workspace would have reported to a new one, so that calling it
    again is without effect; when there is none, the new instance starts
    with an empty set, whatever the set of an earlier instance held, and
    no Session object is created or lost. *)
Theorem getInstance_singleton (initial : list Terminal.Signal) (st : Package.State) :
  ∃ st', Package.getInstance initial st = Package.Done () st'
    ∧ Package.terminal st' = true
    ∧ (Package.terminal st = true → st' = st)
    ∧ (Package.terminal st = false →
         terminalsSet (Package.atom st') = JSSet.empty
         ∧ dom (heap (Package.atom st')) = dom (heap (Package.atom st)))
    ∧ ∀ initial', Package.getInstance initial' st' = Package.Done () st'.
Proof.
  unfold Package.getInstance. destruct (Package.terminal st) eqn:Hterminal.
  - exists st. split_and!; try done. intros initial'. by rewrite Hterminal.
  - destruct (construct_frame initial (Package.atom st)) as (w' & Hrun & Hset & Hdom & _).
    rewrite Hrun. eexists. split_and!; try done.
Qed.

Lemma getInstance_singleton_witness :
  ∃ st', Package.getInstance [Terminal.Visible RightDock false] (inactive two_sessions)
           = Package.Done () st'
    ∧ terminalsSet (Package.atom st') = JSSet.empty
    ∧ Package.getInstance [] (active two_sessions) = Package.Done () (active two_sessions).
Proof.
  destruct (getInstance_singleton [Terminal.Visible RightDock false] (inactive two_sessions))
    as (st' & Hrun & _ & _ & Hnew & _).
  exists st'. split_and!; [exact Hrun | by apply Hnew |].
  destruct (getInstance_singleton [] (active two_sessions)) as (st'' & Hrun' & _ & Hsame & _).
  by rewrite Hrun', Hsame.
Defined.

(** X16: [deactivate] on a package with an instance makes every Session of
    the set exit, disposes the disposables and drops the instance; the
    set is empty afterwards.  On a package without an instance it does
    nothing, and in particular creates none; so a second [deactivate]
    is without effect. *)
Theorem deactivate_exits_all (st : Package.State) (extra : nat) :
  (Package.terminal st = true →
     ∃ st', Package.deactivate (S (length (terminalsSet (Package.atom st))) + extra) st
              = Some (Package.Done () st')
       ∧ Package.terminal st' = false
       ∧ Package.subscribed st' = false
       ∧ JSSet.values (terminalsSet (Package.atom st')) = []
       ∧ (∀ t, registered t (Package.atom st) → CallExit t ∈ calls (Package.atom st'))
       ∧ ∀ n, Package.deactivate n st' = Some (Package.Done () st'))
  ∧ (Package.terminal st = false →
     ∀ n, Package.deactivate n st = Some (Package.Done () st)).
Proof.
  split; intros Hterminal.
  - destruct (exit_loop (S (length (terminalsSet (Package.atom st))) + extra) 0 (Package.atom st))
      as (w' & Hrun & Hempty & _ & Hall & _); [lia | lia |].
    unfold Package.deactivate, Package.destroy, Terminal.exitAllTerminals,
      Terminal.exitAllTerminals_with.
    rewrite Hterminal, Hrun. eexists. split_and!; try done.
  - intros n. unfold Package.deactivate. by rewrite Hterminal.
Qed.

Lemma deactivate_exits_all_witness :
  (∃ st', Package.deactivate 3 (active two_sessions) = Some (Package.Done () st')
     ∧ Package.terminal st' = false
     ∧ JSSet.values (terminalsSet (Package.atom st')) = [])
  ∧ Package.deactivate 0 (inactive two_sessions) = Some (Package.Done () (inactive two_sessions)).
Proof.
  destruct (deactivate_exits_all (active two_sessions) 0) as [Hactive _].
  destruct (deactivate_exits_all (inactive two_sessions) 0) as [_ Hinactive].
  split.
  - destruct Hactive as (st' & Hrun & Hterminal & _ & Hempty & _); [reflexivity |].
    exists st'. split_and!; [exact Hrun | exact Hterminal | exact Hempty].
  - apply Hinactive. reflexivity.
Defined.

Lemma new_on_empty (u : string) (w : World) :
  terminalsSet w = JSSet.empty →
  ∃ w', Model.new u w = Ok (fresh (dom (heap w))) w'
    ∧ JSSet.values (terminalsSet w') = [fresh (dom (heap w))]
    ∧ uri <$> heap w' !! fresh (dom (heap w)) = Some u.
Proof.
  intros Hempty. eexists. split; [reflexivity |]. simpl. rewrite Hempty. split; [done |].
  rewrite uri_foldr_mark. by rewrite lookup_insert_eq.
Qed.

(** X18: the exported [deserializeTerminalModel], called while the package
    has no instance, creates the instance first, whatever the policy.
    With the policy off it then returns nothing, and the new instance has
    no Session; with the policy on the restored Session, bound to the
    serialized address, is the one Session of the new instance. *)
Theorem deserialize_creates_instance
    (initial : list Terminal.Signal) (u : string) (w : World) :
  (truthy (allowRelaunching w) = false →
     ∃ st', Package.deserializeTerminalModel initial u (inactive w) = Package.Done None st'
       ∧ Package.terminal st' = true
       ∧ JSSet.values (terminalsSet (Package.atom st')) = [])
  ∧ (truthy (allowRelaunching w) = true →
     ∃ t st', Package.deserializeTerminalModel initial u (inactive w) = Package.Done (Some t) st'
       ∧ Package.terminal st' = true
       ∧ JSSet.values (terminalsSet (Package.atom st')) = [t]
       ∧ uri <$> heap (Package.atom st') !! t = Some u).
Proof.
  destruct (construct_frame initial w) as (w1 & Hrun & Hset & _ & Hconfig).
  assert (allowRelaunching w1 = allowRelaunching w) as Hallow.
  { unfold allowRelaunching. by rewrite Hconfig. }
  unfold Package.deserializeTerminalModel, Package.getInstance. simpl. rewrite Hrun. simpl.
  unfold Terminal.deserializeTerminalModel, mbind, M_bind, config_get, get.
  fold (allowRelaunching w1). rewrite Hallow.
  split; intros ->.
  - eexists. split; [reflexivity |]. simpl. by rewrite Hset.
  - destruct (new_on_empty u w1 Hset) as (w' & Hnew & Hvalues & Huri).
    rewrite Hnew. eexists _, _. split; [reflexivity |]. done.
Qed.

Lemma deserialize_creates_instance_witness :
  (∃ st', Package.deserializeTerminalModel [] "terminal://a/" (inactive initial_world)
            = Package.Done None st'
     ∧ Package.terminal st' = true
     ∧ JSSet.values (terminalsSet (Package.atom st')) = [])
  ∧ (∃ t st', Package.deserializeTerminalModel [] "terminal://a/" (inactive relaunch_world)
                = Package.Done (Some t) st'
     ∧ Package.terminal st' = true
     ∧ JSSet.values (terminalsSet (Package.atom st')) = [t]
     ∧ uri <$> heap (Package.atom st') !! t = Some "terminal://a/").
Proof.
  split.
  - apply (deserialize_creates_instance [] "terminal://a/" initial_world). reflexivity.
  - apply (deserialize_creates_instance [] "terminal://a/" relaunch_world). reflexivity.
Defined.

(** ** Options handed to [openTerminal] *)

Lemma addDefaultPosition_keeps (options : Options) (w : World) :
  ∃ options', Terminal.addDefaultPosition options w = Ok options' w
    ∧ options ⊆ options'.
Proof.
  assert (∀ p, options ⊆ Terminal.set_pane_unless_given p options) as Hpane.
  { intros p. apply map_subseteq_spec. intros k v. apply set_pane_unless_given_keeps. }
  assert (∀ dir, options ⊆ Terminal.set_split_unless_given dir options) as Hsplit.
  { intros dir. apply map_subseteq_spec. intros k v. apply set_split_unless_given_keeps. }
  unfold Terminal.addDefaultPosition, mbind, M_bind, config_get, getActivePane, get.
  repeat case_decide; (eexists; split; [reflexivity |]); done.
Qed.

(** X20: [openTerminal(options)] makes one request, for the next generated
    address, with the options that [addDefaultPosition] returns for
    [options]; every key the caller supplied goes out with the caller's
    value.  One token is drawn and nothing else changes. *)
Theorem openTerminal_keeps_options (options : Options) (w : World) :
  ∃ options', Terminal.addDefaultPosition options w = Ok options' w
    ∧ options ⊆ options'
    ∧ Terminal.openTerminal options w =
        Ok (OpenPromise (length (calls w))) (requested (next_address w) options' w).
Proof.
  destruct (addDefaultPosition_keeps options w) as (options' & Hrun & Hsub).
  exists options'. split_and!; [done | done |].
  unfold Terminal.openTerminal, mbind at 1, M_bind at 1. rewrite Hrun.
  apply open_generated.
Qed.
